(** * discogs_import: a shallow embedding of [discogs_import.py]

    The script reads a record collection from a CSV file, searches the
    Discogs database for each record and adds the first match to the user's
    collection.  The embedding keeps the script's functions and names:

    - [authenticate], [search], [get_csv_collection],
      [update_discogs_collection] and the [__main__] block ([main]);
    - Python integers are [Z]; [str] is [string], one [ascii] per character;
    - a decoded JSON body is a [json] tree, a [dict] whose order matters is
      an association list, the row dictionary of [csv.DictReader] is a
      [gmap];
    - exceptions are values of [exn]; the network and [time.sleep] are
      effects of the monad [M], which threads the state of the remote side
      and records every request and pause in a trace.

    Console output ([print]) is not part of the model. *)

From Stdlib Require Import ZArith String Ascii List Lia Floats.
From stdpp Require Import base option list strings pretty gmap.
Import ListNotations.

#[local] Set Warnings "-register-all".
Local Open Scope string_scope.
Local Open Scope Z_scope.

(** ** Python values *)

(** A value decoded by [res.json()].  The members of an object are kept
    in order; as in a [dict], a key occurs once. *)
Inductive json : Type :=
| JNull
| JBool (b : bool)
| JInt (z : Z)
| JFloat (f : float)
| JStr (s : string)
| JArr (items : list json)
| JObj (members : list (string * json)).

(** A cell of a [csv.DictReader] row: a [str], or [None] (the reader's
    [restval]) for a column the row is too short to fill. *)
Inductive cell : Type :=
| CStr (s : string)
| CNone.

(** The exceptions the script can meet.  The two [Exception(...)] values
    raised by [search] and the one raised by [update_discogs_collection]
    are told apart by their message. *)
Inductive exn : Type :=
| KeyError (key : json)
| IndexError
| TypeError
| AttributeError
| ValueError
| JSONDecodeError
| RequestException
| UnexpectedAPIError (status_code : Z)
| NoResultsError
| AddFailedError (title : json) (status_code : Z).

(** [sys.exit(code)]: not an [Exception], so no [except Exception] clause
    catches it. *)
Inductive outcome (A : Type) : Type :=
| Returned (a : A)
| Raised (e : exn)
| SystemExit (code : Z).
Arguments Returned {A} a.
Arguments Raised {A} e.
Arguments SystemExit {A} code.

(** ** Builtins used by the script *)

Module Py.

(** [str.isspace] on the characters below 256. *)
Definition isspace (c : ascii) : bool :=
  let n := Z.of_N (N_of_ascii c) in
  ((9 <=? n) && (n <=? 13)) || ((28 <=? n) && (n <=? 32))
  || (n =? 133) || (n =? 160).

Fixpoint lstrip (l : list ascii) : list ascii :=
  match l with
  | c :: l' => if isspace c then lstrip l' else l
  | [] => []
  end.

Definition strip_chars (l : list ascii) : list ascii :=
  rev (lstrip (rev (lstrip l))).

(** [s.strip()] *)
Definition strip (s : string) : string :=
  string_of_list_ascii (strip_chars (list_ascii_of_string s)).

Definition digit (c : ascii) : option Z :=
  let n := Z.of_N (N_of_ascii c) in
  if (48 <=? n) && (n <=? 57) then Some (n - 48) else None.

(** Digits with single underscores between them; [after_underscore]
    tells that the previous character was an underscore. *)
Fixpoint digits (acc : Z) (after_underscore : bool) (l : list ascii)
  : option Z :=
  match l with
  | [] => if after_underscore then None else Some acc
  | c :: l' =>
      if Ascii.eqb c "_"%char
      then (if after_underscore then None else digits acc true l')
      else match digit c with
           | Some d => digits (10 * acc + d) false l'
           | None => None
           end
  end.

Definition is_digit (c : ascii) : bool :=
  match digit c with
  | Some _ => true
  | None => false
  end.

(** [sys.int_info.default_max_str_digits]: [int] refuses a text with more
    decimal digits than this, underscores not counted, leading zeros
    counted. *)
Definition max_str_digits : Z := 4300.

Definition unsigned (l : list ascii) : option Z :=
  match l with
  | c :: _ =>
      match digit c with
      | Some _ =>
          if max_str_digits <? Z.of_nat (length (List.filter is_digit l))
          then None
          else digits 0 false l
      | None => None
      end
  | [] => None
  end.

(** The whitespace [int] passes over around the number: the ASCII
    whitespace of C, and the whitespace above 127.  The separators
    0x1c-0x1f, which [str.strip] drops, are not in it. *)
Definition int_isspace (c : ascii) : bool :=
  let n := Z.of_N (N_of_ascii c) in
  ((9 <=? n) && (n <=? 13)) || (n =? 32) || (n =? 133) || (n =? 160).

Fixpoint int_lstrip (l : list ascii) : list ascii :=
  match l with
  | c :: l' => if int_isspace c then int_lstrip l' else l
  | [] => []
  end.

(** [int(s)] for a [str] in base 10: the whitespace around the number is
    passed over, one sign is allowed, then come decimal digits, with single
    underscores allowed between digits, at most [max_str_digits] digits.
    [None] stands for [ValueError]. *)
Definition int_of_str (s : string) : option Z :=
  match rev (int_lstrip (rev (int_lstrip (list_ascii_of_string s)))) with
  | c :: l' =>
      if Ascii.eqb c "-"%char then Z.opp <$> unsigned l'
      else if Ascii.eqb c "+"%char then unsigned l'
      else unsigned (c :: l')
  | [] => None
  end.

(** [bool(v)] *)
Definition truthy (v : json) : bool :=
  match v with
  | JNull => false
  | JBool b => b
  | JInt z => negb (z =? 0)
  | JFloat f => negb (PrimFloat.eqb f PrimFloat.zero)
  | JStr s => negb (String.eqb s "")
  | JArr items => match items with [] => false | _ => true end
  | JObj members => match members with [] => false | _ => true end
  end.

(** [d.get(key)] on a dictionary kept as an association list *)
Fixpoint dict_get {V : Type} (key : string) (d : list (string * V))
  : option V :=
  match d with
  | [] => None
  | (k, v) :: d' => if String.eqb k key then Some v else dict_get key d'
  end.

(** [v[0]] *)
Definition getitem0 (v : json) : exn + json :=
  match v with
  | JArr (x :: _) => inr x
  | JArr [] => inl IndexError
  | JStr (String c _) => inr (JStr (String c EmptyString))
  | JStr EmptyString => inl IndexError
  | JObj _ => inl (KeyError (JInt 0))
  | _ => inl TypeError
  end.

(** [v[key]] for a [str] key *)
Definition getitem (v : json) (key : string) : exn + json :=
  match v with
  | JObj members =>
      match dict_get key members with
      | Some x => inr x
      | None => inl (KeyError (JStr key))
      end
  | _ => inl TypeError
  end.

(** [str(v)]; [repr] stands for the interpreter's rendering of a float, a
    list or a dict. *)
Definition str (repr : json -> string) (v : json) : string :=
  match v with
  | JStr s => s
  | JInt z => pretty z
  | JNull => "None"
  | JBool true => "True"
  | JBool false => "False"
  | _ => repr v
  end.

(** [f'{c}'] for a row cell *)
Definition format_cell (c : cell) : string :=
  match c with
  | CStr s => s
  | CNone => "None"
  end.

End Py.

(** ** The CSV reader *)

Module Csv.

(** One row of [csv.DictReader]: [d = dict(zip(fieldnames, row))], then
    every field name beyond the row's length is set to [None].  Cells
    beyond the header's length go under the key [None], which no [str]
    key reaches, so they are left out. *)
Fixpoint row_dict (fieldnames : list string) (row : list string)
    (d : gmap string cell) : gmap string cell :=
  match fieldnames, row with
  | k :: ks, v :: vs => row_dict ks vs (<[k := CStr v]> d)
  | ks, [] => fold_left (fun d k => <[k := CNone]> d) ks d
  | [], _ :: _ => d
  end.

(** [csv.DictReader(f)] over the rows [csv.reader] yields: the first row
    gives the field names, empty rows after it are passed over. *)
Definition DictReader (lines : list (list string))
  : list (gmap string cell) :=
  match lines with
  | [] => []
  | fieldnames :: rest =>
      (fun row => row_dict fieldnames row ∅) <$> filter (fun row => row ≠ []) rest
  end.

End Csv.

(** A record dict, as [get_csv_collection] builds it and [search] receives
    it as keyword arguments, in insertion order. *)
Definition record : Type := list (string * cell).

(** The dict display of lines 88-89; a missing column is a [KeyError]. *)
Definition record_of_row (row : gmap string cell) : exn + record :=
  match row !! "Artist" with
  | None => inl (KeyError (JStr "Artist"))
  | Some artist =>
      match row !! "Title" with
      | None => inl (KeyError (JStr "Title"))
      | Some title =>
          match row !! "Year" with
          | None => inl (KeyError (JStr "Year"))
          | Some year =>
              inr [("artist", artist); ("release_title", title);
                   ("year", year); ("type", CStr "release");
                   ("country", CStr "US")]
          end
      end
  end.

(** The [for record in collection_dict] loop of [get_csv_collection]. *)
Fixpoint read_rows (skip count : Z) (rows : list (gmap string cell))
    (collection : list record) : exn + list record :=
  match rows with
  | [] => inr collection
  | row :: rows' =>
      if count <=? skip then read_rows skip (count + 1) rows' collection
      else match record_of_row row with
           | inl e => inl e
           | inr r => read_rows skip (count + 1) rows' (collection ++ [r])%list
           end
  end.

(** [get_csv_collection(filename, skip=...)]; [lines] are the rows of the
    file and [skip_kw] the optional keyword argument. *)
Definition get_csv_collection (lines : list (list string))
    (skip_kw : option Z) : exn + list record :=
  let skip := default 0 skip_kw in
  read_rows skip 1 (Csv.DictReader lines) [].

(** ** The remote side *)

Definition API_HOST : string := "https://api.discogs.com".
Definition DB_API : string := API_HOST +:+ "/database".
Definition USERS_API : string := API_HOST +:+ "/users".

(** What the script reads of a [requests.Response]: [json_body] is [None]
    when [res.json()] raises, [headers_get] is [res.headers.get]. *)
Record Response : Type := mkResponse {
  status_code : Z;
  json_body : option json;
  headers_get : string -> option string
}.

Inductive event : Type :=
| EvGet (url : string)
| EvPost (url : string)
| EvSleep (seconds : Z).

Definition is_get (e : event) : bool :=
  match e with EvGet _ => true | _ => false end.
Definition is_post (e : event) : bool :=
  match e with EvPost _ => true | _ => false end.
Definition is_sleep (e : event) : bool :=
  match e with EvSleep _ => true | _ => false end.

(** The session headers set by [authenticate]. *)
Definition session_headers : Type := list (string * string).

(** [authenticate(username)]; [token_line] is what
    [token_file.readline()] returns, [None] when opening or reading
    [TOKEN_FILE] raises. *)
Definition authenticate (token_line : option string) (username : string)
  : outcome session_headers :=
  match token_line with
  | None => SystemExit 1
  | Some line =>
      let token := Py.strip line in
      Returned [("Authorization", "Discogs token=" +:+ token);
                ("User-Agent", username +:+ "/discogs_import")]
  end.

(** The transport under [requests.Session]: a request gets the session's
    headers and the URL, may change the state [W] of the remote side, and
    answers with a response, or with [None] when the request itself
    raises. *)
Record Transport (W : Type) : Type := mkTransport {
  http_get : session_headers -> string -> W -> option Response * W;
  http_post : session_headers -> string -> W -> option Response * W
}.
Arguments http_get {W} _ _ _ _.
Arguments http_post {W} _ _ _ _.
Arguments mkTransport {W} _ _.

(** A run: how it ended, the state of the remote side, and the requests
    and pauses made, in order. *)
Record Run (W A : Type) : Type := mkRun {
  result : outcome A;
  world : W;
  trace : list event
}.
Arguments mkRun {W A} _ _ _.
Arguments result {W A} _.
Arguments world {W A} _.
Arguments trace {W A} _.

Definition M (W A : Type) : Type := W -> Run W A.

Definition ret {W A} (a : A) : M W A := fun w => mkRun (Returned a) w [].

Definition raise {W A} (e : exn) : M W A := fun w => mkRun (Raised e) w [].

Definition bind {W A B} (m : M W A) (k : A -> M W B) : M W B :=
  fun w =>
    let r := m w in
    match result r with
    | Returned a =>
        let r' := k a (world r) in
        mkRun (result r') (world r') (trace r ++ trace r')
    | Raised e => mkRun (Raised e) (world r) (trace r)
    | SystemExit c => mkRun (SystemExit c) (world r) (trace r)
    end.

(** [try: m / except Exception as e: ...], with the outcome handed to the
    code after the [try] statement. *)
Definition attempt {W A} (m : M W A) : M W (exn + A) :=
  fun w =>
    let r := m w in
    match result r with
    | Returned a => mkRun (Returned (inr a)) (world r) (trace r)
    | Raised e => mkRun (Returned (inl e)) (world r) (trace r)
    | SystemExit c => mkRun (SystemExit c) (world r) (trace r)
    end.

Definition lift {W A} (x : exn + A) : M W A :=
  match x with
  | inl e => raise e
  | inr a => ret a
  end.

Definition sleep {W} (seconds : Z) : M W unit :=
  fun w => mkRun (Returned tt) w [EvSleep seconds].

Notation "x <- m ;; k" := (bind m (fun x => k))
  (at level 100, m at next level, right associativity).

(** ** The resolver and the orchestrator *)

(** The loop of lines 53-55: [url += f'{param}={value}&'] for each keyword
    argument, in order. *)
Definition search_url (kwargs : record) : string :=
  fold_left
    (fun url kv => url +:+ fst kv +:+ "=" +:+ Py.format_cell (snd kv) +:+ "&")
    kwargs (DB_API +:+ "/search?").

(** [res.json()] *)
Definition json_of (res : Response) : exn + json :=
  match json_body res with
  | Some data => inr data
  | None => inl JSONDecodeError
  end.

(** The test of line 58, [res.status_code != 200 or 'results' not in
    data.keys()], then lines 60-62.  [data.keys()] is only reached with
    status 200, and raises [AttributeError] unless [data] is a dict. *)
Definition first_result (res : Response) (data : json) : exn + json :=
  if negb (status_code res =? 200)
  then inl (UnexpectedAPIError (status_code res))
  else match data with
       | JObj members =>
           match Py.dict_get "results" members with
           | None => inl (UnexpectedAPIError (status_code res))
           | Some results =>
               if negb (Py.truthy results) then inl NoResultsError
               else Py.getitem0 results
           end
       | _ => inl AttributeError
       end.

Definition RATELIMIT_HEADER : string := "X-Discogs-Ratelimit-Remaining".

(** Lines 126-127: [int(res.headers.get(RATELIMIT_HEADER, 0))]; the
    default is the integer 0, a header value is a [str]. *)
Definition remaining_calls (res : Response) : exn + Z :=
  match headers_get res RATELIMIT_HEADER with
  | None => inr 0
  | Some s =>
      match Py.int_of_str s with
      | Some n => inr n
      | None => inl ValueError
      end
  end.

(** How one pass through the body of the orchestrator's loop ends. *)
Inductive loop_ctl : Type :=
| Continue (count : Z)
| Break.

Definition collection_url (username : string) : string :=
  USERS_API +:+ "/" +:+ username +:+ "/collection/folders/1/releases/".

Section Client.

Context {W : Type}.
Variable http : Transport W.
(** The interpreter's [repr] of floats, lists and dicts, see [Py.str]. *)
Variable repr : json -> string.

(** [session.get(url)] *)
Definition session_get (session : session_headers) (url : string)
  : M W Response :=
  fun w =>
    let res := http_get http session url w in
    match fst res with
    | Some r => mkRun (Returned r) (snd res) [EvGet url]
    | None => mkRun (Raised RequestException) (snd res) [EvGet url]
    end.

(** [session.post(url)] *)
Definition session_post (session : session_headers) (url : string)
  : M W Response :=
  fun w =>
    let res := http_post http session url w in
    match fst res with
    | Some r => mkRun (Returned r) (snd res) [EvPost url]
    | None => mkRun (Raised RequestException) (snd res) [EvPost url]
    end.

(** [search(session, **kwargs)].  The [except] clause of lines 63-65
    prints and raises the same exception again. *)
Definition search (session : session_headers) (kwargs : record)
  : M W json :=
  let url := search_url kwargs in
  res <- session_get session url ;;
  data <- lift (json_of res) ;;
  lift (first_result res data).

(** Lines 116-129, the part of the loop body after a successful search. *)
Definition add_release (session : session_headers) (url : string)
    (limit count : Z) (release : json) : M W loop_ctl :=
  title <- lift (Py.getitem release "title") ;;
  id <- lift (Py.getitem release "id") ;;
  res <- session_post session (url +:+ Py.str repr id) ;;
  if negb (status_code res =? 201)
  then raise (AddFailedError title (status_code res))
  else if count =? limit then ret Break
  else
    let count := count + 1 in
    remaining <- lift (remaining_calls res) ;;
    _ <- (if remaining <? 5 then sleep 60 else ret tt) ;;
    ret (Continue count).

(** The body of the loop of lines 110-129 for one record. *)
Definition update_record (session : session_headers) (url : string)
    (limit count : Z) (r : record) : M W loop_ctl :=
  found <- attempt (search session r) ;;
  match found with
  | inl _ => ret (Continue (count + 1))
  | inr release => add_release session url limit count release
  end.

(** [for record in collection: ...] *)
Fixpoint update_loop (session : session_headers) (url : string)
    (limit count : Z) (collection : list record) : M W unit :=
  match collection with
  | [] => ret tt
  | r :: rest =>
      ctl <- update_record session url limit count r ;;
      match ctl with
      | Continue count' => update_loop session url limit count' rest
      | Break => ret tt
      end
  end.

(** [update_discogs_collection(session, username, collection, limit=...)] *)
Definition update_discogs_collection (session : session_headers)
    (username : string) (collection : list record) (limit_kw : option Z)
  : M W unit :=
  let limit := default 0 limit_kw in
  let url := collection_url username in
  update_loop session url limit 1 collection.

(** The [__main__] block after argument parsing. *)
Definition main (username : string) (lines : list (list string))
    (token_line : option string) (limit skip : Z) : M W unit :=
  fun w =>
    match get_csv_collection lines (Some skip) with
    | inl e => mkRun (Raised e) w []
    | inr [] => mkRun (SystemExit 1) w []
    | inr collection =>
        match authenticate token_line username with
        | Returned session =>
            update_discogs_collection session username collection
              (Some limit) w
        | Raised e => mkRun (Raised e) w []
        | SystemExit c => mkRun (SystemExit c) w []
        end
    end.

End Client.

(** ** Vocabulary of the statements *)

(** A run with the events [t] in front. *)
Definition prepend {W A} (t : list event) (r : Run W A) : Run W A :=
  mkRun (result r) (world r) (t ++ trace r).

(** How a search ends, given the answer to its request: [None] is a
    request that raised. *)
Definition search_outcome (answer : option Response) : outcome json :=
  match answer with
  | None => Raised RequestException
  | Some res =>
      match json_of res with
      | inl e => Raised e
      | inr data =>
          match first_result res data with
          | inl e => Raised e
          | inr release => Returned release
          end
      end
  end.

(** The pause after an accepted add with [remaining] calls left. *)
Definition pause (remaining : Z) : list event :=
  if remaining <? 5 then [EvSleep 60] else [].

(** The record dict built from three cells. *)
Definition query (artist title year : cell) : record :=
  [("artist", artist); ("release_title", title); ("year", year);
   ("type", CStr "release"); ("country", CStr "US")].

(** The cell a row holds for a column name, by position: the last column of
    that name counts, and a row too short for it holds [None]. *)
Fixpoint lookup_column (name : string) (fieldnames row : list string)
  : option cell :=
  match fieldnames with
  | [] => None
  | k :: ks =>
      match lookup_column name ks (tail row) with
      | Some c => Some c
      | None =>
          if String.eqb k name
          then Some (match row with v :: _ => CStr v | [] => CNone end)
          else None
      end
  end.

Definition column (name : string) (fieldnames row : list string) : cell :=
  default CNone (lookup_column name fieldnames row).

(** The descriptor of one data row under a header. *)
Definition query_of_row (fieldnames row : list string) : record :=
  query (column "Artist" fieldnames row) (column "Title" fieldnames row)
        (column "Year" fieldnames row).

(** The rows [csv.DictReader] yields after the header. *)
Definition data_rows (rest : list (list string)) : list (list string) :=
  filter (fun row => row ≠ []) rest.

(** All rows turned into records, the first failure winning. *)
Fixpoint records_of (rows : list (gmap string cell)) : exn + list record :=
  match rows with
  | [] => inr []
  | row :: rows' =>
      match record_of_row row with
      | inl e => inl e
      | inr r =>
          match records_of rows' with
          | inl e => inl e
          | inr rs => inr (r :: rs)
          end
      end
  end.

Definition has_required_columns (fieldnames : list string) : Prop :=
  "Artist" ∈ fieldnames ∧ "Title" ∈ fieldnames ∧ "Year" ∈ fieldnames.

(** A record whose search returns [release] whatever the state of the
    remote side. *)
Definition resolves_to {W} (http : Transport W) (session : session_headers)
    (r : record) (release : json) : Prop :=
  forall w, result (search http session r w) = Returned release.

(** A record whose search fails whatever the state of the remote side. *)
Definition unresolvable {W} (http : Transport W) (session : session_headers)
    (r : record) : Prop :=
  forall w, exists e, result (search http session r w) = Raised e.

(** A remote side that accepts every add request with status 201 and a
    usable rate-limit header. *)
Definition accepting {W} (http : Transport W) : Prop :=
  forall session url w,
  exists res n,
    fst (http_post http session url w) = Some res
    /\ status_code res = 201 /\ remaining_calls res = inr n.

(** The first of the required columns, in the order the record dict reads
    them, that a header lacks. *)
Definition first_missing (fieldnames : list string) : option string :=
  List.find (fun key => bool_decide (key ∉ fieldnames))
    ["Artist"; "Title"; "Year"].

(** The parameters [search] writes for keyword arguments, without the
    path. *)
Fixpoint query_string (kwargs : record) : string :=
  match kwargs with
  | [] => ""
  | kv :: kwargs' =>
      fst kv +:+ "=" +:+ Py.format_cell (snd kv) +:+ "&"
        +:+ query_string kwargs'
  end.

(** A string of whitespace only. *)
Definition blank (s : string) : Prop :=
  Forall (fun c => Py.isspace c = true) (list_ascii_of_string s).

(** A string that neither starts nor ends with whitespace. *)
Definition unpadded (s : string) : Prop :=
  forall c,
    head (list_ascii_of_string s) = Some c
    \/ last (list_ascii_of_string s) = Some c ->
    Py.isspace c = false.

(** A trace made of one block per record: a search, then possibly an add,
    then possibly a pause of 60 seconds. *)
Fixpoint record_blocks (t : list event) : bool :=
  match t with
  | [] => true
  | EvGet _ :: t1 =>
      match t1 with
      | EvPost _ :: t2 =>
          match t2 with
          | EvSleep seconds :: t3 => (seconds =? 60) && record_blocks t3
          | _ => record_blocks t2
          end
      | _ => record_blocks t1
      end
  | _ => false
  end.

(** A record whose search always returns a release with a title and an
    id. *)
Definition resolvable {W} (http : Transport W) (session : session_headers)
    (r : record) : Prop :=
  exists release title id,
    resolves_to http session r release
    /\ Py.getitem release "title" = inr title
    /\ Py.getitem release "id" = inr id.

(** The records a run reaches when every search and every add succeeds:
    those up to the limit, all of them without a positive limit. *)
Definition reached (limit count : Z) (collection : list record)
  : list record :=
  if count <=? limit then take (Z.to_nat (limit - count + 1)) collection
  else collection.

(** ** Fixtures *)

Module Fixture.

Definition no_headers : string -> option string := fun _ => None.

Definition ratelimit (value : string) : string -> option string :=
  fun name => if String.eqb name RATELIMIT_HEADER then Some value else None.

(** A search response with one result. *)
Definition found (id : Z) (title : string) : Response :=
  mkResponse 200
    (Some (JObj [("results",
                  JArr [JObj [("id", JInt id); ("title", JStr title)]])]))
    no_headers.

(** A search response with no result. *)
Definition not_found : Response :=
  mkResponse 200 (Some (JObj [("results", JArr [])])) no_headers.

(** A gateway error page: no JSON in the body. *)
Definition bad_gateway : Response := mkResponse 502 None no_headers.

(** An accepted add, with the rate-limit header set to [remaining]. *)
Definition added (remaining : string) : Response :=
  mkResponse 201 (Some (JObj [])) (ratelimit remaining).

Definition rejected (status : Z) : Response :=
  mkResponse status None no_headers.

(** A remote side that answers the requests with the responses of a
    script, one after the other. *)
Definition scripted : Transport (list (option Response)) :=
  let next := fun (_ : session_headers) (_ : string)
                  (w : list (option Response)) =>
                match w with
                | [] => (None, [])
                | r :: w' => (r, w')
                end in
  mkTransport next next.

(** A remote side that finds release 7 for every search and answers
    every add request with [post_response]. *)
Definition finds_all (post_response : Response) : Transport unit :=
  mkTransport (fun _ _ w => (Some (found 7 "Kind of Blue"), w))
              (fun _ _ w => (Some post_response, w)).

(** A remote side that finds nothing, whatever the search. *)
Definition finds_none : Transport unit :=
  mkTransport (fun _ _ w => (Some not_found, w))
              (fun _ _ w => (None, w)).

(** A remote side that cannot be reached: every request raises. *)
Definition unreachable : Transport unit :=
  mkTransport (fun _ _ w => (None, w)) (fun _ _ w => (None, w)).

(** A remote side that finds release 7 and whose add requests raise. *)
Definition finds_then_drops : Transport unit :=
  mkTransport (fun _ _ w => (Some (found 7 "Kind of Blue"), w))
              (fun _ _ w => (None, w)).

(** A remote side whose results have an id and no title. *)
Definition finds_untitled : Transport unit :=
  mkTransport
    (fun _ _ w =>
       (Some (mkResponse 200
                (Some (JObj [("results", JArr [JObj [("id", JInt 7)]])]))
                no_headers), w))
    (fun _ _ w => (Some (added "10"), w)).

(** The release every search of [finds_all] returns. *)
Definition release : json :=
  JObj [("id", JInt 7); ("title", JStr "Kind of Blue")].

Definition no_repr : json -> string := fun _ => "".

Definition session : session_headers :=
  [("Authorization", "Discogs token=t"); ("User-Agent", "u/discogs_import")].

Definition r1 : record := query (CStr "Miles Davis") (CStr "Kind of Blue") (CStr "1959").
Definition r2 : record := query (CStr "John Coltrane") (CStr "Giant Steps") (CStr "1960").
Definition r3 : record := query (CStr "Bill Evans") (CStr "Waltz for Debby") (CStr "1962").

(** A collection file: header, three records and an empty line. *)
Definition table : list (list string) :=
  [["Artist"; "Title"; "Year"];
   ["Miles Davis"; "Kind of Blue"; "1959"];
   [];
   ["John Coltrane"; "Giant Steps"; "1960"];
   ["Bill Evans"; "Waltz for Debby"; "1962"]].

End Fixture.

(** * Properties *)

(** ** The model on small inputs *)

Example int_of_str_3 : Py.int_of_str "3" = Some 3.
Proof. reflexivity. Qed.

Example int_of_str_padded : Py.int_of_str " -1_0 " = Some (-10).
Proof. reflexivity. Qed.

Example int_of_str_abc : Py.int_of_str "abc" = None.
Proof. reflexivity. Qed.

Example int_of_str_empty : Py.int_of_str "" = None.
Proof. reflexivity. Qed.

Example int_of_str_double_underscore : Py.int_of_str "1__0" = None.
Proof. reflexivity. Qed.

Example int_of_str_unit_separator :
  Py.int_of_str (String "028" "3") = None
  /\ Py.int_of_str (String "133" "3") = Some 3
  /\ Py.strip (String "028" "3") = "3".
Proof. by vm_compute. Qed.

Example int_of_str_digit_cap :
  Py.int_of_str (string_of_list_ascii (repeat "0"%char 4300)) = Some 0
  /\ Py.int_of_str (string_of_list_ascii (repeat "0"%char 4301)) = None.
Proof. by vm_compute. Qed.

Example reader_short_row :
  get_csv_collection [["Artist"; "Title"; "Year"]; ["Miles Davis"]] None
  = inr [query (CStr "Miles Davis") CNone CNone].
Proof. reflexivity. Qed.

Example reader_last_column_of_a_name_wins :
  get_csv_collection [["Artist"; "Title"; "Year"; "Title"];
                      ["a"; "first"; "1959"; "second"]] None
  = inr [query (CStr "a") (CStr "second") (CStr "1959")].
Proof. reflexivity. Qed.

Example run_two_records :
  let script :=
    [Some (Fixture.found 1 "Kind of Blue"); Some (Fixture.added "3");
     Some Fixture.not_found] in
  let run :=
    update_discogs_collection Fixture.scripted Fixture.no_repr Fixture.session
      "u" [Fixture.r1; Fixture.r2] None script in
  result run = Returned tt
  /\ trace run
     = [EvGet (search_url Fixture.r1); EvPost (collection_url "u" +:+ "1");
        EvSleep 60; EvGet (search_url Fixture.r2)].
Proof. by vm_compute. Qed.

(** ** The CSV reader *)

Section Reader.

Implicit Types (fieldnames row : list string) (d : gmap string cell).

Lemma row_dict_nil fieldnames d :
  Csv.row_dict fieldnames [] d
  = fold_left (fun d k => <[k := CNone]> d) fieldnames d.
Proof. by destruct fieldnames. Qed.

(** The row dictionary agrees with the lookup by position. *)
Lemma row_dict_lookup name fieldnames : forall row d,
  Csv.row_dict fieldnames row d !! name
  = match lookup_column name fieldnames row with
    | Some c => Some c
    | None => d !! name
    end.
Proof.
  induction fieldnames as [| k ks IH]; intros row d.
  - by destruct row.
  - destruct row as [| v vs].
    + rewrite row_dict_nil. cbn [fold_left]. rewrite <- row_dict_nil.
      rewrite IH. cbn [lookup_column tail].
      destruct (lookup_column name ks []); [done |].
      destruct (String.eqb_spec k name) as [-> | Hne].
      * by rewrite lookup_insert_eq.
      * by rewrite lookup_insert_ne.
    + cbn [Csv.row_dict]. rewrite IH. cbn [lookup_column tail].
      destruct (lookup_column name ks vs); [done |].
      destruct (String.eqb_spec k name) as [-> | Hne].
      * by rewrite lookup_insert_eq.
      * by rewrite lookup_insert_ne.
Qed.

Lemma lookup_column_None name fieldnames : forall row,
  lookup_column name fieldnames row = None <-> name ∉ fieldnames.
Proof.
  induction fieldnames as [| k ks IH]; intros row; cbn [lookup_column].
  - split; [intros _; apply not_elem_of_nil | done].
  - rewrite not_elem_of_cons.
    destruct (lookup_column name ks (tail row)) eqn:Hl.
    + split; [done |]. intros [_ Hks].
      apply (IH (tail row)) in Hks. congruence.
    + apply (IH (tail row)) in Hl.
      destruct (String.eqb_spec k name) as [-> | Hne].
      * split; [done | by intros [? _]].
      * split; [intros _; split; [congruence | done] | done].
Qed.

Lemma row_lookup_present name fieldnames row :
  name ∈ fieldnames ->
  Csv.row_dict fieldnames row ∅ !! name = Some (column name fieldnames row).
Proof.
  intros Hin. rewrite row_dict_lookup. unfold column.
  destruct (lookup_column name fieldnames row) eqn:Hl; [done |].
  by apply lookup_column_None in Hl.
Qed.

Lemma row_lookup_absent name fieldnames row :
  name ∉ fieldnames -> Csv.row_dict fieldnames row ∅ !! name = None.
Proof.
  intros Hin. rewrite row_dict_lookup.
  apply (lookup_column_None name fieldnames row) in Hin. by rewrite Hin.
Qed.

Lemma record_of_row_present fieldnames row :
  has_required_columns fieldnames ->
  record_of_row (Csv.row_dict fieldnames row ∅)
  = inr (query_of_row fieldnames row).
Proof.
  intros (Ha & Ht & Hy). unfold record_of_row.
  by rewrite !row_lookup_present.
Qed.

(** With a column missing, every row fails, and with the same key. *)
Lemma record_of_row_missing fieldnames :
  ~ has_required_columns fieldnames ->
  exists key,
    (key ∈ ["Artist"; "Title"; "Year"]) /\ (key ∉ fieldnames)
    /\ forall row,
         record_of_row (Csv.row_dict fieldnames row ∅)
         = inl (KeyError (JStr key)).
Proof.
  intros Hmiss. unfold record_of_row.
  destruct (decide ("Artist" ∈ fieldnames)) as [Ha | Ha].
  2: { exists "Artist". split_and!; [set_solver | done |].
       intros row. by rewrite row_lookup_absent. }
  destruct (decide ("Title" ∈ fieldnames)) as [Ht | Ht].
  2: { exists "Title". split_and!; [set_solver | done |].
       intros row. rewrite row_lookup_present by done.
       by rewrite row_lookup_absent. }
  destruct (decide ("Year" ∈ fieldnames)) as [Hy | Hy].
  2: { exists "Year". split_and!; [set_solver | done |].
       intros row. rewrite !row_lookup_present by done.
       by rewrite row_lookup_absent. }
  destruct Hmiss. by split_and!.
Qed.

(** The reading loop drops the rows counted up to [skip] and turns the
    others into records, in order. *)
Lemma read_rows_spec skip rows : forall count collection,
  read_rows skip count rows collection
  = match records_of (drop (Z.to_nat (skip - count + 1)) rows) with
    | inl e => inl e
    | inr rs => inr (collection ++ rs)%list
    end.
Proof.
  induction rows as [| row rows IH]; intros count collection.
  - rewrite drop_nil. cbn. by rewrite app_nil_r.
  - cbn [read_rows]. destruct (Z.leb_spec count skip) as [Hle | Hgt].
    + rewrite IH.
      replace (Z.to_nat (skip - count + 1))
        with (S (Z.to_nat (skip - (count + 1) + 1))) by lia.
      done.
    + replace (Z.to_nat (skip - count + 1)) with 0%nat by lia.
      rewrite drop_0. cbn [records_of].
      destruct (record_of_row row) as [e | r]; [done |].
      rewrite IH.
      replace (Z.to_nat (skip - (count + 1) + 1)) with 0%nat by lia.
      rewrite drop_0.
      destruct (records_of rows) as [e | rs]; [done |].
      by rewrite <- app_assoc.
Qed.

Lemma get_csv_collection_spec lines skip_kw :
  get_csv_collection lines skip_kw
  = records_of (drop (Z.to_nat (default 0 skip_kw)) (Csv.DictReader lines)).
Proof.
  unfold get_csv_collection. rewrite read_rows_spec.
  replace (default 0 skip_kw - 1 + 1) with (default 0 skip_kw) by lia.
  by destruct (records_of _).
Qed.

Lemma DictReader_cons fieldnames rest :
  Csv.DictReader (fieldnames :: rest)
  = (fun row => Csv.row_dict fieldnames row ∅) <$> data_rows rest.
Proof. done. Qed.

Lemma records_of_present fieldnames (rows : list (list string)) :
  has_required_columns fieldnames ->
  records_of ((fun row => Csv.row_dict fieldnames row ∅) <$> rows)
  = inr (query_of_row fieldnames <$> rows).
Proof.
  intros Hcols. induction rows as [| row rows IH]; [done |].
  rewrite !fmap_cons. cbn [records_of].
  by rewrite record_of_row_present, IH.
Qed.

End Reader.

Section ReaderClaims.

Lemma data_rows_Forall rest : Forall (fun row => row ≠ []) (data_rows rest).
Proof.
  apply Forall_forall. intros row Hin.
  by apply list_elem_of_filter in Hin as [? _].
Qed.

Lemma data_rows_fixed (rows : list (list string)) :
  Forall (fun row => row ≠ []) rows -> data_rows rows = rows.
Proof.
  unfold data_rows. induction 1 as [| row rows Hrow _ IH]; [done |].
  rewrite filter_cons_True by done. by rewrite IH.
Qed.

(** C9: for every input file and every [N >= 0], reading with [skip = N]
    drops exactly the first [N] data rows whatever they hold (the result
    is the one of reading the file without them), returns the remaining
    rows as descriptors in file order when the header has the required
    columns, and returns the empty list when [N] is at least the number
    of data rows. *)
Theorem skip_drops_first_rows (lines : list (list string)) (N : Z) :
  0 <= N ->
  let remaining := drop (Z.to_nat N) (data_rows (tail lines)) in
  get_csv_collection lines (Some N)
  = get_csv_collection (take 1 lines ++ remaining)%list (Some 0)
  /\ (forall fieldnames,
        head lines = Some fieldnames ->
        has_required_columns fieldnames ->
        get_csv_collection lines (Some N)
        = inr (query_of_row fieldnames <$> remaining))
  /\ (Z.of_nat (length (data_rows (tail lines))) <= N ->
      get_csv_collection lines (Some N) = inr []).
Proof.
  intros HN remaining. rewrite !get_csv_collection_spec. cbn [default from_option id].
  change (Z.to_nat 0) with 0%nat. rewrite drop_0.
  destruct lines as [| fieldnames rest].
  - subst remaining. cbn [tail take]. unfold data_rows.
    rewrite filter_nil. cbn [Csv.DictReader app]. rewrite !drop_nil.
    by split_and!.
  - subst remaining. cbn [take tail head app].
    rewrite !DictReader_cons, <- fmap_drop.
    split_and!.
    + f_equal. f_equal. symmetry. apply data_rows_fixed.
      apply Forall_drop, data_rows_Forall.
    + intros ? [= <-] Hcols. by apply records_of_present.
    + intros Hlen. rewrite drop_ge by lia. done.
Qed.

(** C3 (amended): when the header lacks one of Artist, Title, Year,
    reading fails with a [KeyError] for a missing column exactly when a
    data row is left after skipping, and [main] then ends with that
    error; when no row is left, reading returns the empty list and [main]
    exits with code 1.  Either way [main] makes no request and leaves the
    remote side as it was. *)
Theorem missing_column_fails_on_kept_row
    (fieldnames : list string) (rest : list (list string)) (skip : Z) :
  ~ has_required_columns fieldnames ->
  let lines := fieldnames :: rest in
  let remaining := drop (Z.to_nat skip) (data_rows rest) in
  (remaining ≠ [] ->
   exists key,
     (key ∈ ["Artist"; "Title"; "Year"]) /\ (key ∉ fieldnames)
     /\ get_csv_collection lines (Some skip) = inl (KeyError (JStr key))
     /\ forall W (http : Transport W) repr username token_line limit w,
          main http repr username lines token_line limit skip w
          = mkRun (Raised (KeyError (JStr key))) w [])
  /\ (remaining = [] ->
      get_csv_collection lines (Some skip) = inr []
      /\ forall W (http : Transport W) repr username token_line limit w,
           main http repr username lines token_line limit skip w
           = mkRun (SystemExit 1) w []).
Proof.
  intros Hmiss lines remaining.
  destruct (record_of_row_missing fieldnames Hmiss)
    as (key & Hkey & Hnot & Hrow).
  assert (Hget : get_csv_collection lines (Some skip)
                 = match remaining with
                   | [] => inr []
                   | _ :: _ => inl (KeyError (JStr key))
                   end).
  { subst lines. rewrite get_csv_collection_spec, DictReader_cons.
    cbn [default from_option id]. rewrite <- fmap_drop. fold remaining.
    destruct remaining as [| row rows]; [done |].
    rewrite fmap_cons. cbn [records_of]. by rewrite Hrow. }
  split.
  - intros Hne. exists key.
    assert (Hfail : get_csv_collection lines (Some skip)
                    = inl (KeyError (JStr key))).
    { rewrite Hget. by destruct remaining. }
    split_and!; [done | done | done |].
    intros W http repr username token_line limit w. unfold main.
    by rewrite Hfail.
  - intros Hnone.
    assert (Hempty : get_csv_collection lines (Some skip) = inr []).
    { by rewrite Hget, Hnone. }
    split; [done |].
    intros W http repr username token_line limit w. unfold main.
    by rewrite Hempty.
Qed.

End ReaderClaims.

(** ** The resolver and the orchestrator, step by step *)

Section Steps.

Context {W : Type}.
Variable http : Transport W.
Variable repr : json -> string.
Variable session : session_headers.

Lemma search_run (r : record) (w : W) :
  let answer := http_get http session (search_url r) w in
  search http session r w
  = mkRun (search_outcome (fst answer)) (snd answer) [EvGet (search_url r)].
Proof.
  unfold search, search_outcome, bind, session_get, lift, raise, ret.
  cbn zeta. destruct (fst (http_get http session (search_url r) w)) as [res |];
    cbn; [| done].
  destruct (json_of res) as [e | data]; cbn; [done |].
  by destruct (first_result res data).
Qed.

Lemma search_trace (r : record) (w : W) :
  trace (search http session r w) = [EvGet (search_url r)].
Proof. by rewrite search_run. Qed.

Lemma search_no_exit (r : record) (w : W) c :
  result (search http session r w) <> SystemExit c.
Proof.
  rewrite search_run. cbn. unfold search_outcome.
  destruct (fst _) as [res |]; [| done].
  destruct (json_of res) as [? | data]; [done |].
  by destruct (first_result res data).
Qed.

Variable url : string.
Variable limit : Z.

(** The body of the loop when the search fails: lines 113-115. *)
Lemma update_record_skipped count r w e :
  result (search http session r w) = Raised e ->
  update_record http repr session url limit count r w
  = mkRun (Returned (Continue (count + 1)))
          (world (search http session r w)) [EvGet (search_url r)].
Proof.
  intros Hs. unfold update_record, bind, attempt. cbn zeta.
  rewrite Hs. cbn. by rewrite search_trace.
Qed.

(** The body of the loop when the search returns a release. *)
Lemma update_record_found count r w release :
  result (search http session r w) = Returned release ->
  update_record http repr session url limit count r w
  = prepend [EvGet (search_url r)]
      (add_release http repr session url limit count release
         (world (search http session r w))).
Proof.
  intros Hs. unfold update_record, bind, attempt, prepend. cbn zeta.
  rewrite Hs. cbn. by rewrite search_trace.
Qed.

(** Lines 116-129 once the release has a title and an id. *)
Lemma add_release_run count release title id w :
  Py.getitem release "title" = inr title ->
  Py.getitem release "id" = inr id ->
  let target := url +:+ Py.str repr id in
  let answer := http_post http session target w in
  add_release http repr session url limit count release w
  = match fst answer with
    | None => mkRun (Raised RequestException) (snd answer) [EvPost target]
    | Some res =>
        if negb (status_code res =? 201)
        then mkRun (Raised (AddFailedError title (status_code res)))
                   (snd answer) [EvPost target]
        else if count =? limit
        then mkRun (Returned Break) (snd answer) [EvPost target]
        else match remaining_calls res with
             | inl e => mkRun (Raised e) (snd answer) [EvPost target]
             | inr n => mkRun (Returned (Continue (count + 1))) (snd answer)
                              (EvPost target :: pause n)
             end
    end.
Proof.
  intros Ht Hi target answer. subst answer.
  unfold add_release, bind, session_post, lift, raise, ret, sleep, pause.
  rewrite Ht, Hi. cbn. fold target.
  destruct (fst (http_post http session target w)) as [res |]; cbn; [| done].
  destruct (negb (status_code res =? 201)); cbn; [done |].
  destruct (count =? limit); cbn; [done |].
  destruct (remaining_calls res) as [e | n]; cbn; [done |].
  by destruct (n <? 5).
Qed.

(** One turn of the [for] loop. *)
Lemma update_loop_cons count r rest w :
  update_loop http repr session url limit count (r :: rest) w
  = let body := update_record http repr session url limit count r w in
    match result body with
    | Returned (Continue count') =>
        prepend (trace body)
          (update_loop http repr session url limit count' rest (world body))
    | Returned Break => mkRun (Returned tt) (world body) (trace body)
    | Raised e => mkRun (Raised e) (world body) (trace body)
    | SystemExit c => mkRun (SystemExit c) (world body) (trace body)
    end.
Proof.
  cbn [update_loop]. unfold bind, prepend. cbn zeta.
  destruct (result (update_record http repr session url limit count r w))
    as [[count' |] | e | c]; try done.
  cbn. by rewrite app_nil_r.
Qed.

Lemma update_loop_skipped count r rest w e :
  result (search http session r w) = Raised e ->
  update_loop http repr session url limit count (r :: rest) w
  = prepend [EvGet (search_url r)]
      (update_loop http repr session url limit (count + 1) rest
         (world (search http session r w))).
Proof.
  intros Hs. rewrite update_loop_cons.
  by rewrite (update_record_skipped _ _ _ _ Hs).
Qed.

End Steps.

(** ** The resolver *)

(** C4 (amended): a search whose request is answered ends by the
    response: a body that is not JSON fails with the decoding error,
    whatever the status; a JSON body with a status other than 200, or a
    JSON object without "results", fails with [UnexpectedAPIError] and the
    status; status 200 with an empty "results" array fails with
    [NoResultsError]; status 200 with a non-empty "results" array returns
    its first element unchanged. *)
Theorem search_classifies_response {W} (http : Transport W)
    (session : session_headers) (kwargs : record) (w : W) (res : Response) :
  fst (http_get http session (search_url kwargs) w) = Some res ->
  let ended := result (search http session kwargs w) in
  let status := status_code res in
  (json_body res = None -> ended = Raised JSONDecodeError)
  /\ (forall data,
        json_body res = Some data -> status <> 200 ->
        ended = Raised (UnexpectedAPIError status))
  /\ (forall members,
        json_body res = Some (JObj members) ->
        Py.dict_get "results" members = None ->
        ended = Raised (UnexpectedAPIError status))
  /\ (forall members,
        json_body res = Some (JObj members) -> status = 200 ->
        Py.dict_get "results" members = Some (JArr []) ->
        ended = Raised NoResultsError)
  /\ (forall members first others,
        json_body res = Some (JObj members) -> status = 200 ->
        Py.dict_get "results" members = Some (JArr (first :: others)) ->
        ended = Returned first).
Proof.
  intros Hget ended status. subst ended status.
  rewrite search_run. cbn [result]. rewrite Hget.
  unfold search_outcome, json_of, first_result.
  split_and!.
  - by intros ->.
  - intros data -> Hne. apply Z.eqb_neq in Hne. by rewrite Hne.
  - intros members -> Hres. rewrite Hres.
    by destruct (negb (status_code res =? 200)).
  - intros members -> -> Hres. by rewrite Hres.
  - intros members first others -> -> Hres. by rewrite Hres.
Qed.

(** C4, as stated, fails on an error page: status 502 with a body that is
    not JSON ends the search with the decoding error, not with
    [UnexpectedAPIError 502]. *)
Lemma search_error_page_not_json :
  let res := Fixture.bad_gateway in
  status_code res <> 200
  /\ result (search Fixture.scripted Fixture.session Fixture.r1 [Some res])
     = Raised JSONDecodeError
  /\ result (search Fixture.scripted Fixture.session Fixture.r1 [Some res])
     <> Raised (UnexpectedAPIError (status_code res)).
Proof. cbn. split_and!; done. Qed.

(** ** The orchestrator *)

Section Orchestrator.

Context {W : Type}.
Variable http : Transport W.
Variable repr : json -> string.
Variable session : session_headers.
Variable url : string.

(** C5: when the add request for a found release is answered with a
    status other than 201, the loop ends there by raising, whatever the
    limit and the count: nothing is requested for the records after it.
    A failed search, by contrast, goes on with the next record. *)
Theorem add_failure_aborts_run (limit count : Z) (r : record)
    (rest : list record) (w : W) (release title id : json)
    (res : Response) :
  result (search http session r w) = Returned release ->
  Py.getitem release "title" = inr title ->
  Py.getitem release "id" = inr id ->
  let w1 := world (search http session r w) in
  let target := url +:+ Py.str repr id in
  fst (http_post http session target w1) = Some res ->
  status_code res <> 201 ->
  update_loop http repr session url limit count (r :: rest) w
  = mkRun (Raised (AddFailedError title (status_code res)))
          (snd (http_post http session target w1))
          [EvGet (search_url r); EvPost target]
  /\ (forall r' w' e,
        result (search http session r' w') = Raised e ->
        update_loop http repr session url limit count (r' :: rest) w'
        = prepend [EvGet (search_url r')]
            (update_loop http repr session url limit (count + 1) rest
               (world (search http session r' w')))).
Proof.
  intros Hs Ht Hi w1 target Hp Hne. split.
  - rewrite update_loop_cons, (update_record_found _ _ _ _ _ _ _ _ _ Hs).
    rewrite (add_release_run _ _ _ _ _ _ _ _ _ _ Ht Hi).
    fold w1 target. rewrite Hp.
    apply Z.eqb_neq in Hne. by rewrite Hne.
  - intros r' w' e Hs'. by apply update_loop_skipped with e.
Qed.

(** C2 (amended): after an add answered with 201, the loop stops
    without reading the header when the count equals the limit;
    otherwise the header is read: when it is missing the remaining count
    is 0 and the run pauses 60 seconds, when it holds an integer [n] the
    run pauses exactly when [n < 5], and when it does not hold an
    integer the run fails with [ValueError], without a pause. *)
Theorem ratelimit_header_read (limit count : Z) (release title id : json)
    (res : Response) (w : W) :
  Py.getitem release "title" = inr title ->
  Py.getitem release "id" = inr id ->
  let target := url +:+ Py.str repr id in
  fst (http_post http session target w) = Some res ->
  status_code res = 201 ->
  let run := add_release http repr session url limit count release w in
  (count = limit ->
   result run = Returned Break /\ trace run = [EvPost target])
  /\ (count <> limit ->
      headers_get res RATELIMIT_HEADER = None ->
      result run = Returned (Continue (count + 1))
      /\ trace run = [EvPost target; EvSleep 60])
  /\ (forall s n,
        count <> limit ->
        headers_get res RATELIMIT_HEADER = Some s ->
        Py.int_of_str s = Some n ->
        result run = Returned (Continue (count + 1))
        /\ trace run = EvPost target :: pause n)
  /\ (forall s,
        count <> limit ->
        headers_get res RATELIMIT_HEADER = Some s ->
        Py.int_of_str s = None ->
        result run = Raised ValueError /\ trace run = [EvPost target]).
Proof.
  intros Ht Hi target Hp Hst run. subst run.
  rewrite (add_release_run _ _ _ _ _ _ _ _ _ _ Ht Hi).
  fold target. rewrite Hp, Hst. cbn [negb Z.eqb Pos.eqb].
  unfold remaining_calls. split_and!.
  - intros ->. by rewrite Z.eqb_refl.
  - intros Hne Hh. apply Z.eqb_neq in Hne. by rewrite Hne, Hh.
  - intros s n Hne Hh Hn. apply Z.eqb_neq in Hne. by rewrite Hne, Hh, Hn.
  - intros s Hne Hh Hn. apply Z.eqb_neq in Hne. by rewrite Hne, Hh, Hn.
Qed.

End Orchestrator.

Section Loop.

Context {W : Type}.
Variable http : Transport W.
Variable repr : json -> string.
Variable session : session_headers.
Variable url : string.

(** The turn of the loop for a record that is found. *)
Lemma update_loop_found limit count r rest w release title id :
  result (search http session r w) = Returned release ->
  Py.getitem release "title" = inr title ->
  Py.getitem release "id" = inr id ->
  let target := url +:+ Py.str repr id in
  let answer :=
    http_post http session target (world (search http session r w)) in
  let sent := [EvGet (search_url r); EvPost target] in
  update_loop http repr session url limit count (r :: rest) w
  = match fst answer with
    | None => mkRun (Raised RequestException) (snd answer) sent
    | Some res =>
        if negb (status_code res =? 201)
        then mkRun (Raised (AddFailedError title (status_code res)))
                   (snd answer) sent
        else if count =? limit then mkRun (Returned tt) (snd answer) sent
        else match remaining_calls res with
             | inl e => mkRun (Raised e) (snd answer) sent
             | inr n =>
                 prepend (sent ++ pause n)
                   (update_loop http repr session url limit (count + 1)
                      rest (snd answer))
             end
    end.
Proof.
  intros Hs Ht Hi target answer sent. subst answer sent.
  rewrite update_loop_cons, (update_record_found _ _ _ _ _ _ _ _ _ Hs).
  rewrite (add_release_run _ _ _ _ _ _ _ _ _ _ Ht Hi).
  fold target. cbn zeta.
  destruct (fst (http_post _ _ _ _)) as [res |]; [| done].
  destruct (negb (status_code res =? 201)); [done |].
  destruct (count =? limit); [done |].
  by destruct (remaining_calls res).
Qed.

(** The turn of the loop for a record that is found and added. *)
Lemma update_loop_added limit count r rest w release title id res :
  result (search http session r w) = Returned release ->
  Py.getitem release "title" = inr title ->
  Py.getitem release "id" = inr id ->
  let w1 := world (search http session r w) in
  let target := url +:+ Py.str repr id in
  fst (http_post http session target w1) = Some res ->
  status_code res = 201 ->
  update_loop http repr session url limit count (r :: rest) w
  = let w2 := snd (http_post http session target w1) in
    if count =? limit
    then mkRun (Returned tt) w2 [EvGet (search_url r); EvPost target]
    else match remaining_calls res with
         | inl e => mkRun (Raised e) w2 [EvGet (search_url r); EvPost target]
         | inr n =>
             prepend ([EvGet (search_url r); EvPost target] ++ pause n)
               (update_loop http repr session url limit (count + 1) rest w2)
         end.
Proof.
  intros Hs Ht Hi w1 target Hp Hst.
  rewrite update_loop_cons, (update_record_found _ _ _ _ _ _ _ _ _ Hs).
  rewrite (add_release_run _ _ _ _ _ _ _ _ _ _ Ht Hi).
  fold w1 target. rewrite Hp, Hst. cbn [negb Z.eqb Pos.eqb].
  destruct (count =? limit); [done |].
  by destruct (remaining_calls res).
Qed.

(** A run over records whose searches all fail: one request each, no
    add, no pause. *)
Lemma update_loop_all_skipped limit collection : forall count w,
  Forall (unresolvable http session) collection ->
  let run := update_loop http repr session url limit count collection w in
  result run = Returned tt
  /\ trace run = (fun r => EvGet (search_url r)) <$> collection.
Proof.
  induction collection as [| r rest IH]; intros count w Hall; [done |].
  apply Forall_cons in Hall as [Hr Hrest].
  destruct (Hr w) as [e He]. cbn zeta.
  rewrite (update_loop_skipped _ _ _ _ _ _ _ _ _ _ He).
  destruct (IH (count + 1) (world (search http session r w)) Hrest)
    as [Hres Htr].
  unfold prepend. cbn [result trace]. by rewrite Hres, Htr.
Qed.

(** C7: after an add answered with 201 whose rate-limit value is [n],
    and unless the limit ends the loop at this record, the loop pauses 60
    seconds before the next record when [n < 5] and goes on at once when
    [5 <= n]; a failed search goes on to the next record without any
    pause, so a run of failed searches never sleeps. *)
Theorem rate_limit_pause (limit : Z) :
  (forall count r rest w release title id res n,
      result (search http session r w) = Returned release ->
      Py.getitem release "title" = inr title ->
      Py.getitem release "id" = inr id ->
      let w1 := world (search http session r w) in
      let target := url +:+ Py.str repr id in
      fst (http_post http session target w1) = Some res ->
      status_code res = 201 ->
      remaining_calls res = inr n ->
      count <> limit ->
      let next :=
        update_loop http repr session url limit (count + 1) rest
          (snd (http_post http session target w1)) in
      let run :=
        update_loop http repr session url limit count (r :: rest) w in
      (n < 5 ->
       run = prepend [EvGet (search_url r); EvPost target; EvSleep 60] next)
      /\ (5 <= n ->
          run = prepend [EvGet (search_url r); EvPost target] next))
  /\ (forall count r rest w e,
        result (search http session r w) = Raised e ->
        update_loop http repr session url limit count (r :: rest) w
        = prepend [EvGet (search_url r)]
            (update_loop http repr session url limit (count + 1) rest
               (world (search http session r w))))
  /\ (forall count collection w,
        Forall (unresolvable http session) collection ->
        let run :=
          update_loop http repr session url limit count collection w in
        result run = Returned tt
        /\ trace run = (fun r => EvGet (search_url r)) <$> collection
        /\ filter is_sleep (trace run) = []).
Proof.
  split_and!.
  - intros count r rest w release title id res n Hs Ht Hi w1 target Hp Hst
      Hn Hne next run. subst run next.
    rewrite (update_loop_added _ _ _ _ _ _ _ _ _ Hs Ht Hi Hp Hst).
    fold w1 target. apply Z.eqb_neq in Hne. rewrite Hne, Hn. unfold pause.
    split; intros Hcmp.
    + apply Z.ltb_lt in Hcmp. by rewrite Hcmp.
    + apply Z.ltb_ge in Hcmp. by rewrite Hcmp.
  - intros count r rest w e Hs. by apply update_loop_skipped with e.
  - intros count collection w Hall.
    destruct (update_loop_all_skipped limit collection count w Hall)
      as [Hres Htr].
    cbn zeta. rewrite Hres, Htr. split_and!; [done | done |].
    clear. induction collection as [| r rest IH]; [done |].
    rewrite fmap_cons, filter_cons_False; [done | by intros []].
Qed.

End Loop.

(** ** The limit *)

Section Limit.

Context {W : Type}.
Variable http : Transport W.
Variable repr : json -> string.
Variable session : session_headers.
Variable url : string.

(** What every pass through the loop body does: one search request; the
    count goes up by one when the loop goes on; the loop only breaks
    when the count equals the limit. *)
Lemma update_record_inv limit count r w :
  let body := update_record http repr session url limit count r w in
  filter is_get (trace body) = [EvGet (search_url r)]
  /\ (forall c, result body = Returned (Continue c) -> c = count + 1)
  /\ (result body = Returned Break -> count = limit)
  /\ (forall c, result body <> SystemExit c).
Proof.
  cbn zeta. destruct (result (search http session r w)) as [release | e | c]
    eqn:Hs.
  - rewrite (update_record_found _ _ _ _ _ _ _ _ _ Hs).
    destruct (Py.getitem release "title") as [e | title] eqn:Ht.
    { unfold add_release, bind, lift, raise. rewrite Ht. cbn.
      split_and!; done. }
    destruct (Py.getitem release "id") as [e | id] eqn:Hi.
    { unfold add_release, bind, lift, raise, ret. rewrite Ht, Hi. cbn.
      split_and!; done. }
    rewrite (add_release_run _ _ _ _ _ _ _ _ _ _ Ht Hi). cbn zeta.
    destruct (fst (http_post _ _ _ _)) as [res |]; [| by split_and!].
    destruct (negb (status_code res =? 201)); [by split_and! |].
    destruct (Z.eqb_spec count limit) as [-> | Hne]; [by split_and! |].
    destruct (remaining_calls res) as [e | n]; [by split_and! |].
    unfold pause. destruct (n <? 5); split_and!; try done; cbn; congruence.
  - rewrite (update_record_skipped _ _ _ _ _ _ _ _ _ Hs).
    split_and!; try done; cbn; congruence.
  - by apply search_no_exit in Hs.
Qed.

(** Away from the limit, the loop body does not depend on it. *)
Lemma update_record_off_limit limit limit' count r w :
  count <> limit -> count <> limit' ->
  update_record http repr session url limit count r w
  = update_record http repr session url limit' count r w.
Proof.
  intros Hne Hne'. apply Z.eqb_neq in Hne, Hne'.
  destruct (result (search http session r w)) as [release | e | c] eqn:Hs.
  - rewrite !(update_record_found _ _ _ _ _ _ _ _ _ Hs). f_equal.
    destruct (Py.getitem release "title") as [e | title] eqn:Ht.
    { unfold add_release, bind, lift, raise. by rewrite Ht. }
    destruct (Py.getitem release "id") as [e | id] eqn:Hi.
    { unfold add_release, bind, lift, raise, ret. by rewrite Ht, Hi. }
    rewrite !(add_release_run _ _ _ _ _ _ _ _ _ _ Ht Hi). cbn zeta.
    by rewrite Hne, Hne'.
  - by rewrite !(update_record_skipped _ _ _ _ _ _ _ _ _ Hs).
  - by apply search_no_exit in Hs.
Qed.

(** Once the count has passed the limit, the limit plays no part. *)
Lemma update_loop_past_limit limit limit' collection : forall count w,
  limit < count -> limit' < count ->
  update_loop http repr session url limit count collection w
  = update_loop http repr session url limit' count collection w.
Proof.
  induction collection as [| r rest IH]; intros count w Hlt Hlt'; [done |].
  rewrite !update_loop_cons. cbn zeta.
  rewrite (update_record_off_limit limit limit') by lia.
  destruct (update_record_inv limit' count r w) as (_ & Hc & _).
  destruct (result (update_record http repr session url limit' count r w))
    as [[c |] | e | c]; try done.
  rewrite (Hc c eq_refl). by rewrite IH by lia.
Qed.

(** Past the limit the loop never breaks: it ends by an exception or
    after a search for every record. *)
Lemma update_loop_past_limit_visits limit collection : forall count w,
  limit < count ->
  let run := update_loop http repr session url limit count collection w in
  (forall c, result run <> SystemExit c)
  /\ (result run = Returned tt ->
      filter is_get (trace run)
      = (fun r => EvGet (search_url r)) <$> collection).
Proof.
  induction collection as [| r rest IH]; intros count w Hlt; [done |].
  cbn zeta. rewrite update_loop_cons. cbn zeta.
  destruct (update_record_inv limit count r w) as (Hg & Hc & Hb & Hx).
  destruct (result (update_record http repr session url limit count r w))
    as [[c |] | e | c] eqn:Hbody.
  - rewrite (Hc c eq_refl).
    destruct (IH (count + 1)
                (world (update_record http repr session url limit count r w)))
      as [Hx' Hall]; [lia |].
    unfold prepend. cbn [result trace]. split; [done |].
    intros Hret. rewrite filter_app, Hg, (Hall Hret). done.
  - specialize (Hb eq_refl). lia.
  - done.
  - by destruct (Hx c).
Qed.

End Limit.

Section AcceptedLoop.

Context {W : Type}.
Variable http : Transport W.
Variable repr : json -> string.
Variable session : session_headers.
Variable url : string.

Lemma pause_no_request n :
  filter is_get (pause n) = [] /\ filter is_post (pause n) = [].
Proof. unfold pause. by destruct (n <? 5). Qed.

Lemma update_loop_accepted limit collection : forall count w,
  Forall (resolvable http session) collection ->
  accepting http ->
  let run := update_loop http repr session url limit count collection w in
  let visited := reached limit count collection in
  result run = Returned tt
  /\ filter is_get (trace run) = (fun r => EvGet (search_url r)) <$> visited
  /\ length (filter is_post (trace run)) = length visited.
Proof.
  induction collection as [| r rest IH]; intros count w Hall Hacc.
  { unfold reached. rewrite take_nil. by destruct (count <=? limit). }
  apply Forall_cons in Hall as [(release & title & id & Hr & Ht & Hi) Hrest].
  cbn zeta.
  rewrite (update_loop_found _ _ _ _ _ _ _ _ _ _ _ _ (Hr w) Ht Hi).
  cbn zeta.
  destruct (Hacc session (url +:+ Py.str repr id)
              (world (search http session r w)))
    as (res & n & -> & Hst & ->).
  rewrite Hst. cbn [negb Z.eqb Pos.eqb]. unfold reached.
  destruct (Z.eqb_spec count limit) as [-> | Hne].
  - rewrite Z.leb_refl.
    replace (Z.to_nat (limit - limit + 1)) with 1%nat by lia.
    cbn [take result trace]. rewrite take_0. by split_and!.
  - specialize (IH (count + 1)
                  (snd (http_post http session (url +:+ Py.str repr id)
                          (world (search http session r w)))) Hrest Hacc).
    cbn zeta in IH. destruct IH as (Hres & Hg & Hp).
    unfold prepend. cbn [result trace].
    destruct (pause_no_request n) as [Hpg Hpp].
    rewrite !filter_app, Hpg, Hpp, Hg, !length_app, Hp.
    unfold reached.
    destruct (Z.leb_spec count limit) as [Hle | Hgt].
    + rewrite (proj2 (Z.leb_le (count + 1) limit)) by lia.
      replace (Z.to_nat (limit - count + 1))
        with (S (Z.to_nat (limit - (count + 1) + 1))) by lia.
      by split_and!.
    + rewrite (proj2 (Z.leb_gt (count + 1) limit)) by lia. by split_and!.
Qed.

End AcceptedLoop.

(** C10: a limit below 1 and a skip below 1 behave as the defaults of 0.
    With [limit <= 0] the run is the run without a limit, and the limit
    never ends it: the count, which starts at 1 and only grows, never
    equals it.  So every record is processed in turn: a record whose
    search fails is passed over, and a release that is found gets its add
    request, after which the loop goes on to the next record unless the
    add is fatal (the request raises, the status is not 201, the
    rate-limit header is not an integer).  A run therefore ends by such an
    exception or after searching every record, and when every record
    resolves and every add is accepted it searches and adds them all.
    With [skip <= 0] the reader returns what it returns without [skip],
    which is every data row turned into a record. *)
Theorem nonpositive_limit_and_skip_are_defaults (limit skip : Z) :
  limit <= 0 -> skip <= 0 ->
  (forall W (http : Transport W) repr session username collection w,
      let run :=
        update_discogs_collection http repr session username collection
          (Some limit) w in
      run = update_discogs_collection http repr session username collection
              None w
      /\ ((exists e, result run = Raised e)
          \/ (result run = Returned tt
              /\ filter is_get (trace run)
                 = (fun r => EvGet (search_url r)) <$> collection))
      /\ (Forall (resolvable http session) collection -> accepting http ->
          result run = Returned tt
          /\ filter is_get (trace run)
             = (fun r => EvGet (search_url r)) <$> collection
          /\ length (filter is_post (trace run)) = length collection))
  /\ (forall W (http : Transport W) repr session url count r rest w
             release title id,
        1 <= count ->
        result (search http session r w) = Returned release ->
        Py.getitem release "title" = inr title ->
        Py.getitem release "id" = inr id ->
        let target := url +:+ Py.str repr id in
        let answer :=
          http_post http session target (world (search http session r w)) in
        let sent := [EvGet (search_url r); EvPost target] in
        update_loop http repr session url limit count (r :: rest) w
        = match fst answer with
          | None => mkRun (Raised RequestException) (snd answer) sent
          | Some res =>
              if negb (status_code res =? 201)
              then mkRun (Raised (AddFailedError title (status_code res)))
                         (snd answer) sent
              else match remaining_calls res with
                   | inl e => mkRun (Raised e) (snd answer) sent
                   | inr n =>
                       prepend (sent ++ pause n)
                         (update_loop http repr session url limit (count + 1)
                            rest (snd answer))
                   end
          end)
  /\ (forall W (http : Transport W) repr session url count r rest w e,
        result (search http session r w) = Raised e ->
        update_loop http repr session url limit count (r :: rest) w
        = prepend [EvGet (search_url r)]
            (update_loop http repr session url limit (count + 1) rest
               (world (search http session r w))))
  /\ (forall lines,
        get_csv_collection lines (Some skip) = get_csv_collection lines None
        /\ get_csv_collection lines (Some skip)
           = records_of (Csv.DictReader lines)).
Proof.
  intros Hl Hs. split_and!.
  - intros W http repr session username collection w.
    unfold update_discogs_collection. cbn [default from_option id].
    split_and!.
    + apply update_loop_past_limit; lia.
    + destruct (update_loop_past_limit_visits http repr session
                  (collection_url username) limit collection 1 w)
        as [Hx Hall]; [lia |].
      destruct (result (update_loop http repr session (collection_url username)
                          limit 1 collection w)) as [[] | e | c] eqn:Hres.
      * right. split; [done |]. by apply Hall.
      * left. by exists e.
      * by destruct (Hx c).
    + intros Hall Hacc.
      pose proof (update_loop_accepted http repr session
                    (collection_url username) limit collection 1 w Hall Hacc)
        as Hloop.
      cbn zeta in Hloop. unfold reached in Hloop.
      by rewrite (proj2 (Z.leb_gt 1 limit)) in Hloop by lia.
  - intros W http repr session url count r rest w release title id Hcount
      Hfound Ht Hi target answer sent.
    rewrite (update_loop_found _ _ _ _ _ _ _ _ _ _ _ _ Hfound Ht Hi).
    cbn zeta. fold target answer sent.
    by rewrite (proj2 (Z.eqb_neq count limit)) by lia.
  - intros W http repr session url count r rest w e Hfail.
    by apply update_loop_skipped with e.
  - intros lines. rewrite !get_csv_collection_spec.
    cbn [default from_option id].
    replace (Z.to_nat skip) with 0%nat by lia. by rewrite drop_0.
Qed.

(** C1 does not hold of the code: the limit is only tested after an
    accepted add (line 122), the [continue] of line 115 passes it by.  With
    [limit = 1] and three records of which the first is not found, the
    count is already 2 when the test is first reached: all three records
    are searched and the second and the third are added. *)
Theorem limit_missed_after_failed_search :
  let script :=
    [Some Fixture.not_found;
     Some (Fixture.found 2 "Giant Steps"); Some (Fixture.added "10");
     Some (Fixture.found 3 "Waltz for Debby"); Some (Fixture.added "10")] in
  let run :=
    update_discogs_collection Fixture.scripted Fixture.no_repr Fixture.session
      "u" [Fixture.r1; Fixture.r2; Fixture.r3] (Some 1) script in
  result run = Returned tt
  /\ trace run
     = [EvGet (search_url Fixture.r1);
        EvGet (search_url Fixture.r2); EvPost (collection_url "u" +:+ "2");
        EvGet (search_url Fixture.r3); EvPost (collection_url "u" +:+ "3")]
  /\ (1 < length (filter is_get (trace run)))%nat.
Proof. vm_compute. split_and!; [done | done | lia]. Qed.

(** C2, as stated, fails on a header that is not an integer: the run
    raises [ValueError] after the add, and does not pause. *)
Lemma ratelimit_not_an_integer_raises :
  let script := [Some (Fixture.found 7 "Kind of Blue");
                 Some (Fixture.added "abc")] in
  let run :=
    update_discogs_collection Fixture.scripted Fixture.no_repr Fixture.session
      "u" [Fixture.r1] None script in
  Py.int_of_str "abc" = None
  /\ result run = Raised ValueError
  /\ trace run
     = [EvGet (search_url Fixture.r1); EvPost (collection_url "u" +:+ "7")].
Proof. vm_compute. by split_and!. Qed.

(** C3, as stated, fails on a table without data rows: the header lacks
    Artist, and reading returns the empty list. *)
Lemma missing_column_without_rows_reads_empty :
  ~ has_required_columns ["Title"; "Year"]
  /\ get_csv_collection [["Title"; "Year"]] (Some 0) = inr [].
Proof.
  split; [| done]. intros [Ha _].
  by repeat (apply elem_of_cons in Ha as [Ha | Ha]; [done |]);
     apply elem_of_nil in Ha.
Qed.

(** C6, as stated, fails when the first add is rejected: all three records
    resolve, the limit is 2, and one add request is sent, not two. *)
Lemma limit_two_first_add_rejected :
  let http := Fixture.finds_all (Fixture.rejected 500) in
  let release := JObj [("id", JInt 7); ("title", JStr "Kind of Blue")] in
  let run :=
    update_discogs_collection http Fixture.no_repr Fixture.session "u"
      [Fixture.r1; Fixture.r2; Fixture.r3] (Some 2) tt in
  (forall r, r ∈ [Fixture.r1; Fixture.r2; Fixture.r3] ->
             resolves_to http Fixture.session r release)
  /\ result run = Raised (AddFailedError (JStr "Kind of Blue") 500)
  /\ filter is_post (trace run) = [EvPost (collection_url "u" +:+ "7")].
Proof.
  cbn zeta. split_and!.
  - intros r _ w. by rewrite search_run.
  - by vm_compute.
  - by vm_compute.
Qed.

Lemma append_assoc (a b c : string) : (a +:+ b) +:+ c = a +:+ b +:+ c.
Proof.
  induction a as [| x a IH]; [done |].
  change (String x ((a +:+ b) +:+ c) = String x (a +:+ b +:+ c)).
  by rewrite IH.
Qed.

(** The search URL of the record dict built from three cells. *)
Lemma search_url_of_query (artist title year : cell) :
  search_url (query artist title year)
  = "https://api.discogs.com/database/search?"
    +:+ "artist=" +:+ Py.format_cell artist +:+ "&"
    +:+ "release_title=" +:+ Py.format_cell title +:+ "&"
    +:+ "year=" +:+ Py.format_cell year +:+ "&"
    +:+ "type=release&" +:+ "country=US&".
Proof.
  unfold search_url, query. cbn [fold_left fst snd].
  rewrite !append_assoc. reflexivity.
Qed.

(** C8: for every record that [get_csv_collection] returns, built from a
    row of the file (lines 88-89), the URL that [search] requests is the
    search path followed by the pairs [key=value&] for artist,
    release_title, year, type=release and country=US, in this order; the
    values of artist, release_title and year are the row's Artist, Title
    and Year written as they are: a [str] cell is its own text, nothing is
    escaped. *)
Theorem search_url_literal (lines : list (list string)) (skip_kw : option Z)
    (rs : list record) :
  get_csv_collection lines skip_kw = inr rs ->
  Forall2
    (fun (row : gmap string cell) (r : record) =>
       exists artist title year,
         row !! "Artist" = Some artist
         /\ row !! "Title" = Some title
         /\ row !! "Year" = Some year
         /\ search_url r
            = "https://api.discogs.com/database/search?"
              +:+ "artist=" +:+ Py.format_cell artist +:+ "&"
              +:+ "release_title=" +:+ Py.format_cell title +:+ "&"
              +:+ "year=" +:+ Py.format_cell year +:+ "&"
              +:+ "type=release&" +:+ "country=US&"
         /\ forall W (http : Transport W) session w,
              trace (search http session r w) = [EvGet (search_url r)])
    (drop (Z.to_nat (default 0 skip_kw)) (Csv.DictReader lines)) rs
  /\ (forall s, Py.format_cell (CStr s) = s).
Proof.
  rewrite get_csv_collection_spec. intros Hrs. split; [| done].
  revert rs Hrs.
  induction (drop (Z.to_nat (default 0 skip_kw)) (Csv.DictReader lines))
    as [| row rows IH]; intros rs; cbn [records_of].
  - intros [= <-]. constructor.
  - unfold record_of_row.
    destruct (row !! "Artist") as [artist |] eqn:Ha; [| done].
    destruct (row !! "Title") as [title |] eqn:Ht; [| done].
    destruct (row !! "Year") as [year |] eqn:Hy; [| done].
    destruct (records_of rows) as [e | rs']; [done |].
    intros [= <-]. constructor; [| by apply IH].
    exists artist, title, year. split_and!; [done | done | done | |].
    + apply search_url_of_query.
    + intros. apply search_trace.
Qed.

Example search_url_reserved_characters :
  search_url (query (CStr "Simon & Garfunkel") (CStr "Bookends?") (CStr "1968"))
  = "https://api.discogs.com/database/search?artist=Simon & Garfunkel&release_title=Bookends?&year=1968&type=release&country=US&".
Proof. reflexivity. Qed.

(** C6 (amended): with [limit = 2] and three records that each resolve to
    a release with an id and a title, a run that ends normally has sent
    add requests for exactly the first two records, each after its search;
    a run cut short by an exception (an add that is rejected or raises, a
    rate-limit header that is not an integer) stops somewhere on the same
    way; the third record is never searched nor added.  When the remote
    side accepts every add, the run ends normally. *)
Theorem limit_two_of_three_resolved {W} (http : Transport W)
    (repr : json -> string) (session : session_headers) (username : string)
    (r1 r2 r3 : record) (rel1 rel2 rel3 : json)
    (title1 title2 title3 id1 id2 id3 : json) (w : W) :
  resolves_to http session r1 rel1 ->
  resolves_to http session r2 rel2 ->
  resolves_to http session r3 rel3 ->
  Py.getitem rel1 "title" = inr title1 -> Py.getitem rel1 "id" = inr id1 ->
  Py.getitem rel2 "title" = inr title2 -> Py.getitem rel2 "id" = inr id2 ->
  Py.getitem rel3 "title" = inr title3 -> Py.getitem rel3 "id" = inr id3 ->
  let run :=
    update_discogs_collection http repr session username [r1; r2; r3]
      (Some 2) w in
  let add1 := EvPost (collection_url username +:+ Py.str repr id1) in
  let add2 := EvPost (collection_url username +:+ Py.str repr id2) in
  (exists gap,
      (gap = [] \/ gap = [EvSleep 60])
      /\ let full :=
           ([EvGet (search_url r1); add1] ++ gap
              ++ [EvGet (search_url r2); add2])%list in
         (result run = Returned tt /\ trace run = full)
         \/ (exists e, result run = Raised e /\ trace run `prefix_of` full))
  /\ (accepting http ->
      result run = Returned tt /\ filter is_post (trace run) = [add1; add2]).
Proof.
  intros H1 H2 _ Ht1 Hi1 Ht2 Hi2 _ _ run add1 add2.
  subst run. unfold update_discogs_collection. cbn [default from_option id].
  set (url := collection_url username) in *.
  rewrite (update_loop_found _ _ _ _ _ _ _ _ _ _ _ _ (H1 w) Ht1 Hi1).
  cbn zeta. change (1 =? 2) with false. change (1 + 1) with 2.
  fold add1. cbv iota.
  set (post1 := http_post http session (url +:+ Py.str repr id1)
                  (world (search http session r1 w))).
  set (tail := update_loop http repr session url 2 2 [r2; r3] (snd post1)).
  set (post2 := http_post http session (url +:+ Py.str repr id2)
                  (world (search http session r2 (snd post1)))).
  assert (Hsecond :
    (result tail = Returned tt
     /\ trace tail = [EvGet (search_url r2); add2])
    \/ (exists e, result tail = Raised e
                  /\ trace tail `prefix_of` [EvGet (search_url r2); add2]
                  /\ ~ (exists res,
                          fst post2 = Some res /\ status_code res = 201))).
  { subst tail.
    rewrite (update_loop_found _ _ _ _ _ _ _ _ _ _ _ _ (H2 (snd post1)) Ht2 Hi2).
    cbn zeta. change (2 =? 2) with true. fold post2 add2. cbv iota.
    destruct (fst post2) as [res2 |] eqn:Hp2.
    - destruct (Z.eqb_spec (status_code res2) 201) as [Hst | Hst];
        cbn [negb].
      + by left.
      + right. exists (AddFailedError title2 (status_code res2)).
        split_and!; [done | done |]. intros (res & [= <-] & ?). done.
    - right. exists RequestException. split_and!; [done | done |].
      by intros (res & ? & ?). }
  clearbody tail.
  assert (Hshort : forall gap,
    [EvGet (search_url r1); add1]
      `prefix_of` ([EvGet (search_url r1); add1] ++ gap
                     ++ [EvGet (search_url r2); add2])%list).
  { intros gap. by apply prefix_app_r. }
  split.
  - destruct (fst post1) as [res1 |] eqn:Hp1.
    2: { exists []. split; [by left |]. right. exists RequestException.
         split; [done | apply Hshort]. }
    destruct (negb (status_code res1 =? 201)).
    { exists []. split; [by left |]. right. eexists.
      split; [done | apply Hshort]. }
    destruct (remaining_calls res1) as [e | n].
    { exists []. split; [by left |]. right. exists e.
      split; [done | apply Hshort]. }
    exists (pause n). split.
    { unfold pause. destruct (n <? 5); [by right | by left]. }
    unfold prepend. cbn [result trace world].
    destruct Hsecond as [(Hres & Htr) | (e & Hres & Hpre & _)].
    + left. by rewrite Hres, Htr, <- app_assoc.
    + right. exists e. split; [done |].
      rewrite <- app_assoc. by do 2 apply prefix_app.
  - intros Hacc.
    destruct (Hacc session (url +:+ Py.str repr id1)
                (world (search http session r1 w)))
      as (res1 & n1 & Hp1 & Hst1 & Hn1).
    fold post1 in Hp1. rewrite Hp1, Hst1, Hn1. cbn [negb Z.eqb Pos.eqb].
    unfold prepend. cbn [result trace world].
    destruct Hsecond as [(Hres & Htr) | (e & _ & _ & Hno)].
    + rewrite Hres, Htr. split; [done |].
      unfold pause. by destruct (n1 <? 5).
    + destruct Hno.
      destruct (Hacc session (url +:+ Py.str repr id2)
                  (world (search http session r2 (snd post1))))
        as (res2 & n2 & Hp2 & Hst2 & _).
      by exists res2.
Qed.

(** ** The statements on concrete runs *)

Lemma search_url_literal_witness :
  search_url
    (query (CStr "Simon & Garfunkel") (CStr "Bookends?") (CStr "1968"))
  = "https://api.discogs.com/database/search?artist=Simon & Garfunkel&release_title=Bookends?&year=1968&type=release&country=US&".
Proof.
  destruct (search_url_literal
              [["Artist"; "Title"; "Year"];
               ["Simon & Garfunkel"; "Bookends?"; "1968"]] None
              [query (CStr "Simon & Garfunkel") (CStr "Bookends?")
                 (CStr "1968")] eq_refl) as [Hrows _].
  apply Forall2_cons_1 in Hrows as [Hrow _].
  destruct Hrow as (artist & title & year & Ha & Ht & Hy & Hurl & _).
  vm_compute in Ha, Ht, Hy.
  injection Ha as <-. injection Ht as <-. injection Hy as <-.
  exact Hurl.
Defined.

Lemma skip_drops_first_rows_witness :
  0 <= 1
  /\ get_csv_collection Fixture.table (Some 1) = inr [Fixture.r2; Fixture.r3]
  /\ get_csv_collection Fixture.table (Some 3) = inr [].
Proof.
  split; [lia |]. split.
  - destruct (skip_drops_first_rows Fixture.table 1 ltac:(lia))
      as (_ & Hrows & _).
    rewrite (Hrows ["Artist"; "Title"; "Year"] eq_refl); [reflexivity |].
    unfold has_required_columns. split_and!; repeat constructor.
  - destruct (skip_drops_first_rows Fixture.table 3 ltac:(lia))
      as (_ & _ & Hnone).
    apply Hnone. vm_compute. discriminate.
Defined.

Lemma missing_column_fails_on_kept_row_witness :
  (exists key,
      get_csv_collection [["Title"; "Year"]; ["Kind of Blue"; "1959"]] (Some 0)
      = inl (KeyError (JStr key))
      /\ main Fixture.unreachable Fixture.no_repr "u"
           [["Title"; "Year"]; ["Kind of Blue"; "1959"]] (Some "t") 0 0 tt
         = mkRun (Raised (KeyError (JStr key))) tt [])
  /\ main Fixture.unreachable Fixture.no_repr "u"
       [["Title"; "Year"]; ["Kind of Blue"; "1959"]] (Some "t") 0 1 tt
     = mkRun (SystemExit 1) tt [].
Proof.
  assert (Hmiss : ~ has_required_columns ["Title"; "Year"]).
  { intros [Ha _].
    by repeat (apply elem_of_cons in Ha as [Ha | Ha]; [done |]);
       apply elem_of_nil in Ha. }
  split.
  - destruct (missing_column_fails_on_kept_row ["Title"; "Year"]
                [["Kind of Blue"; "1959"]] 0 Hmiss) as (Hfail & _).
    destruct Hfail as (key & _ & _ & Hget & Hmain); [done |].
    exists key. split; [exact Hget | apply Hmain].
  - destruct (missing_column_fails_on_kept_row ["Title"; "Year"]
                [["Kind of Blue"; "1959"]] 1 Hmiss) as (_ & Hnone).
    destruct Hnone as [_ Hmain]; [reflexivity |]. apply Hmain.
Defined.

Lemma search_classifies_response_witness :
  result (search Fixture.scripted Fixture.session Fixture.r1
            [Some (Fixture.found 7 "Kind of Blue")])
  = Returned Fixture.release
  /\ result (search Fixture.scripted Fixture.session Fixture.r1
               [Some Fixture.not_found])
     = Raised NoResultsError.
Proof.
  split.
  - destruct (search_classifies_response Fixture.scripted Fixture.session
                Fixture.r1 [Some (Fixture.found 7 "Kind of Blue")]
                (Fixture.found 7 "Kind of Blue") eq_refl)
      as (_ & _ & _ & _ & Hfirst).
    exact (Hfirst _ _ _ eq_refl eq_refl eq_refl).
  - destruct (search_classifies_response Fixture.scripted Fixture.session
                Fixture.r1 [Some Fixture.not_found] Fixture.not_found eq_refl)
      as (_ & _ & _ & Hempty & _).
    exact (Hempty _ eq_refl eq_refl eq_refl).
Defined.

Lemma add_failure_aborts_run_witness :
  let http := Fixture.finds_all (Fixture.rejected 500) in
  let url := collection_url "u" in
  update_loop http Fixture.no_repr Fixture.session url 5 1
    [Fixture.r1; Fixture.r2] tt
  = mkRun (Raised (AddFailedError (JStr "Kind of Blue") 500)) tt
      [EvGet (search_url Fixture.r1); EvPost (url +:+ "7")].
Proof.
  cbn zeta.
  apply (add_failure_aborts_run (Fixture.finds_all (Fixture.rejected 500))
           Fixture.no_repr Fixture.session (collection_url "u") 5 1
           Fixture.r1 [Fixture.r2] tt Fixture.release
           (JStr "Kind of Blue") (JInt 7) (Fixture.rejected 500)
           eq_refl eq_refl eq_refl eq_refl).
  cbn. discriminate.
Defined.

Lemma ratelimit_header_read_witness :
  let url := collection_url "u" in
  let run value :=
    add_release (Fixture.finds_all (Fixture.added value)) Fixture.no_repr
      Fixture.session url 0 1 Fixture.release tt in
  (result (run "3") = Returned (Continue 2)
   /\ trace (run "3") = [EvPost (url +:+ "7"); EvSleep 60])
  /\ (result (run "abc") = Raised ValueError
      /\ trace (run "abc") = [EvPost (url +:+ "7")])
  /\ (result (run (String "028" "3")) = Raised ValueError
      /\ trace (run (String "028" "3")) = [EvPost (url +:+ "7")]).
Proof.
  cbn zeta. split; [| split].
  - destruct (ratelimit_header_read (Fixture.finds_all (Fixture.added "3"))
                Fixture.no_repr Fixture.session (collection_url "u") 0 1
                Fixture.release (JStr "Kind of Blue") (JInt 7)
                (Fixture.added "3") tt eq_refl eq_refl eq_refl eq_refl)
      as (_ & _ & Hint & _).
    apply (Hint "3" 3); [lia | reflexivity | reflexivity].
  - destruct (ratelimit_header_read (Fixture.finds_all (Fixture.added "abc"))
                Fixture.no_repr Fixture.session (collection_url "u") 0 1
                Fixture.release (JStr "Kind of Blue") (JInt 7)
                (Fixture.added "abc") tt eq_refl eq_refl eq_refl eq_refl)
      as (_ & _ & _ & Hbad).
    apply (Hbad "abc"); [lia | reflexivity | reflexivity].
  - destruct (ratelimit_header_read
                (Fixture.finds_all (Fixture.added (String "028" "3")))
                Fixture.no_repr Fixture.session (collection_url "u") 0 1
                Fixture.release (JStr "Kind of Blue") (JInt 7)
                (Fixture.added (String "028" "3")) tt
                eq_refl eq_refl eq_refl eq_refl)
      as (_ & _ & _ & Hbad).
    apply (Hbad (String "028" "3")); [lia | reflexivity | reflexivity].
Defined.

Lemma rate_limit_pause_witness :
  let url := collection_url "u" in
  let run value :=
    update_loop (Fixture.finds_all (Fixture.added value)) Fixture.no_repr
      Fixture.session url 0 1 [Fixture.r1] tt in
  trace (run "3")
  = [EvGet (search_url Fixture.r1); EvPost (url +:+ "7"); EvSleep 60]
  /\ trace (run "10")
     = [EvGet (search_url Fixture.r1); EvPost (url +:+ "7")]
  /\ trace (update_loop Fixture.finds_none Fixture.no_repr Fixture.session
              url 0 1 [Fixture.r1; Fixture.r2] tt)
     = [EvGet (search_url Fixture.r1); EvGet (search_url Fixture.r2)].
Proof.
  cbn zeta. split_and!.
  - destruct (rate_limit_pause (Fixture.finds_all (Fixture.added "3"))
                Fixture.no_repr Fixture.session (collection_url "u") 0)
      as (Hadd & _ & _).
    destruct (Hadd 1 Fixture.r1 [] tt Fixture.release (JStr "Kind of Blue")
                (JInt 7) (Fixture.added "3") 3
                eq_refl eq_refl eq_refl eq_refl eq_refl eq_refl ltac:(lia))
      as [Hlow _].
    rewrite (Hlow ltac:(lia)). reflexivity.
  - destruct (rate_limit_pause (Fixture.finds_all (Fixture.added "10"))
                Fixture.no_repr Fixture.session (collection_url "u") 0)
      as (Hadd & _ & _).
    destruct (Hadd 1 Fixture.r1 [] tt Fixture.release (JStr "Kind of Blue")
                (JInt 7) (Fixture.added "10") 10
                eq_refl eq_refl eq_refl eq_refl eq_refl eq_refl ltac:(lia))
      as [_ Hhigh].
    rewrite (Hhigh ltac:(lia)). reflexivity.
  - destruct (rate_limit_pause Fixture.finds_none Fixture.no_repr
                Fixture.session (collection_url "u") 0) as (_ & _ & Hnone).
    destruct (Hnone 1 [Fixture.r1; Fixture.r2] tt) as (_ & Htrace & _).
    + repeat constructor; intros w; by exists NoResultsError.
    + exact Htrace.
Defined.

Lemma limit_two_of_three_resolved_witness :
  let run :=
    update_discogs_collection (Fixture.finds_all (Fixture.added "3"))
      Fixture.no_repr Fixture.session "u"
      [Fixture.r1; Fixture.r2; Fixture.r3] (Some 2) tt in
  result run = Returned tt
  /\ filter is_post (trace run)
     = [EvPost (collection_url "u" +:+ "7");
        EvPost (collection_url "u" +:+ "7")].
Proof.
  cbn zeta.
  assert (Hfound : forall r,
    resolves_to (Fixture.finds_all (Fixture.added "3")) Fixture.session r
      Fixture.release).
  { intros r w. reflexivity. }
  destruct (limit_two_of_three_resolved
              (Fixture.finds_all (Fixture.added "3")) Fixture.no_repr
              Fixture.session "u" Fixture.r1 Fixture.r2 Fixture.r3
              Fixture.release Fixture.release Fixture.release
              (JStr "Kind of Blue") (JStr "Kind of Blue")
              (JStr "Kind of Blue") (JInt 7) (JInt 7) (JInt 7) tt
              (Hfound _) (Hfound _) (Hfound _)
              eq_refl eq_refl eq_refl eq_refl eq_refl eq_refl)
    as [_ Hacc].
  apply Hacc. intros session url w.
  exists (Fixture.added "3"), 3. split_and!; reflexivity.
Defined.

Lemma nonpositive_limit_and_skip_are_defaults_witness :
  let run limit_kw :=
    update_discogs_collection (Fixture.finds_all (Fixture.added "10"))
      Fixture.no_repr Fixture.session "u" [Fixture.r1; Fixture.r2]
      limit_kw tt in
  get_csv_collection Fixture.table (Some (-2))
  = get_csv_collection Fixture.table None
  /\ run (Some (-1)) = run None
  /\ result (run (Some (-1))) = Returned tt
  /\ length (filter is_post (trace (run (Some (-1))))) = 2%nat.
Proof.
  cbn zeta.
  destruct (nonpositive_limit_and_skip_are_defaults (-1) (-2)
              ltac:(lia) ltac:(lia)) as (Hlimit & _ & _ & Hskip).
  destruct (Hlimit unit (Fixture.finds_all (Fixture.added "10"))
              Fixture.no_repr Fixture.session "u" [Fixture.r1; Fixture.r2] tt)
    as (Hsame & _ & Hall).
  destruct Hall as (Hres & _ & Hposts).
  - repeat constructor;
      exists Fixture.release, (JStr "Kind of Blue"), (JInt 7);
      split_and!; try reflexivity; intros w; reflexivity.
  - intros session url w. exists (Fixture.added "10"), 10.
    split_and!; reflexivity.
  - split_and!; [apply Hskip | exact Hsame | exact Hres | exact Hposts].
Defined.

(** * Further properties of the script *)

(** ** [authenticate] *)

Lemma lstrip_blank_app (ws l : list ascii) :
  Forall (fun c => Py.isspace c = true) ws ->
  Py.lstrip (ws ++ l)%list = Py.lstrip l.
Proof.
  induction 1 as [| c ws Hc _ IH]; [done |].
  cbn [app Py.lstrip]. by rewrite Hc.
Qed.

Lemma lstrip_app_blank (l ws : list ascii) :
  Forall (fun c => Py.isspace c = true) ws ->
  Py.lstrip (l ++ ws)%list
  = match Py.lstrip l with
    | [] => []
    | c :: l' => (c :: l' ++ ws)%list
    end.
Proof.
  intros Hws. induction l as [| c l IH].
  - cbn [app Py.lstrip]. rewrite <- (app_nil_r ws).
    by rewrite lstrip_blank_app.
  - cbn [app Py.lstrip]. by destruct (Py.isspace c).
Qed.

Lemma strip_chars_blank_around (lead l trail : list ascii) :
  Forall (fun c => Py.isspace c = true) lead ->
  Forall (fun c => Py.isspace c = true) trail ->
  Py.strip_chars (lead ++ l ++ trail)%list = Py.strip_chars l.
Proof.
  intros Hlead Htrail. unfold Py.strip_chars.
  rewrite lstrip_blank_app, lstrip_app_blank by done.
  destruct (Py.lstrip l) as [| c l']; [done |].
  rewrite app_comm_cons, rev_app_distr.
  rewrite lstrip_blank_app; [done |].
  apply Forall_forall. intros x Hx. apply list_elem_of_In, in_rev in Hx.
  rewrite Forall_forall in Htrail. apply Htrail. by apply list_elem_of_In.
Qed.

Lemma list_ascii_of_string_app (a b : string) :
  list_ascii_of_string (a +:+ b)
  = (list_ascii_of_string a ++ list_ascii_of_string b)%list.
Proof.
  induction a as [| c a IH]; [done |].
  change (c :: list_ascii_of_string (a +:+ b)
          = c :: (list_ascii_of_string a ++ list_ascii_of_string b)%list).
  by rewrite IH.
Qed.

Lemma strip_chars_unpadded (l : list ascii) :
  (forall c, head l = Some c \/ last l = Some c -> Py.isspace c = false) ->
  Py.strip_chars l = l.
Proof.
  intros Hends. unfold Py.strip_chars.
  destruct l as [| c l]; [done |].
  cbn [Py.lstrip]. rewrite (Hends c) by (by left).
  destruct (exists_last (l := c :: l)) as (front & z & Hsplit); [done |].
  rewrite Hsplit in *. rewrite rev_unit. cbn [Py.lstrip].
  rewrite (Hends z) by (right; apply last_snoc).
  cbn [rev]. by rewrite rev_involutive.
Qed.

(** X1: [authenticate] exits with code 1 when the token line cannot be
    read.  Otherwise it returns the two session headers: Authorization
    holds the token exactly, without the whitespace around it on the line
    read (the newline [readline] leaves, for one), and User-Agent names
    the user. *)
Theorem authenticate_strips_token (lead token trail username : string) :
  blank lead -> blank trail -> unpadded token ->
  authenticate (Some (lead +:+ token +:+ trail)) username
  = Returned [("Authorization", "Discogs token=" +:+ token);
              ("User-Agent", username +:+ "/discogs_import")]
  /\ authenticate None username = SystemExit 1.
Proof.
  intros Hlead Htrail Htoken. split; [| done].
  unfold authenticate, Py.strip.
  rewrite !list_ascii_of_string_app.
  rewrite strip_chars_blank_around by done.
  rewrite strip_chars_unpadded by done.
  by rewrite string_of_list_ascii_of_string.
Qed.

Lemma authenticate_strips_token_witness :
  authenticate (Some (" " +:+ "s3 cret" +:+ String "010" "")) "u"
  = Returned [("Authorization", "Discogs token=s3 cret");
              ("User-Agent", "u/discogs_import")].
Proof.
  apply (authenticate_strips_token " " "s3 cret" (String "010" "") "u").
  - repeat constructor.
  - repeat constructor.
  - intros c [Hc | Hc]; vm_compute in Hc; injection Hc as <-; reflexivity.
Defined.

(** ** [search] *)

(** X2: a search returns a release exactly when its request is answered
    with status 200 and a JSON object whose "results" member is truthy and
    can be indexed at 0; the release is that first item. *)
Theorem search_returns_iff {W} (http : Transport W)
    (session : session_headers) (kwargs : record) (w : W) (release : json) :
  result (search http session kwargs w) = Returned release
  <-> exists res members results,
        fst (http_get http session (search_url kwargs) w) = Some res
        /\ status_code res = 200
        /\ json_body res = Some (JObj members)
        /\ Py.dict_get "results" members = Some results
        /\ Py.truthy results = true
        /\ Py.getitem0 results = inr release.
Proof.
  rewrite search_run. cbn [result].
  unfold search_outcome, json_of, first_result. split.
  - destruct (fst (http_get _ _ _ _)) as [res |]; [| done].
    destruct (json_body res) as [data |] eqn:Hbody; [| done].
    destruct (Z.eqb_spec (status_code res) 200) as [Hst | Hst];
      cbn [negb]; [| done].
    destruct data as [| | | | | | members]; try done.
    destruct (Py.dict_get "results" members) as [results |] eqn:Hres;
      [| done].
    destruct (Py.truthy results) eqn:Htruthy; cbn [negb]; [| done].
    destruct (Py.getitem0 results) as [e | first] eqn:Hfirst; [done |].
    intros [= <-]. by exists res, members, results.
  - intros (res & members & results & -> & Hst & -> & -> & -> & ->).
    by rewrite Hst.
Qed.

(** X3: how a search answered with status 200 and a JSON body fails when
    the body is not what the API documents: a body that is not an object
    raises [AttributeError]; a falsy "results" member (null, false, 0, an
    empty string, list or object) raises [NoResultsError]; a non-empty
    object raises [KeyError] for the key 0, a non-zero integer raises
    [TypeError], and a non-empty string is taken for a list: the search
    returns its first character. *)
Theorem search_odd_bodies {W} (http : Transport W)
    (session : session_headers) (kwargs : record) (w : W) (res : Response)
    (data : json) :
  fst (http_get http session (search_url kwargs) w) = Some res ->
  status_code res = 200 ->
  json_body res = Some data ->
  let ended := result (search http session kwargs w) in
  ((forall members, data <> JObj members) -> ended = Raised AttributeError)
  /\ (forall members results,
        data = JObj members ->
        Py.dict_get "results" members = Some results ->
        Py.truthy results = false -> ended = Raised NoResultsError)
  /\ (forall members member others,
        data = JObj members ->
        Py.dict_get "results" members = Some (JObj (member :: others)) ->
        ended = Raised (KeyError (JInt 0)))
  /\ (forall members c s,
        data = JObj members ->
        Py.dict_get "results" members = Some (JStr (String c s)) ->
        ended = Returned (JStr (String c "")))
  /\ (forall members z,
        data = JObj members ->
        Py.dict_get "results" members = Some (JInt z) -> z <> 0 ->
        ended = Raised TypeError).
Proof.
  intros Hget Hst Hbody ended. subst ended.
  rewrite search_run. cbn [result]. rewrite Hget.
  unfold search_outcome, json_of, first_result. rewrite Hbody, Hst.
  cbn [negb Z.eqb Pos.eqb]. split_and!.
  - intros Hobj. destruct data; try done. by destruct (Hobj members).
  - intros members results -> -> ->. done.
  - intros members member others -> ->. done.
  - intros members c s -> ->. done.
  - intros members z -> -> Hz. cbn. apply Z.eqb_neq in Hz. by rewrite Hz.
Qed.

Lemma search_odd_bodies_witness :
  let res := mkResponse 200 (Some (JArr [])) Fixture.no_headers in
  result (search Fixture.scripted Fixture.session Fixture.r1 [Some res])
  = Raised AttributeError.
Proof.
  cbn zeta.
  destruct (search_odd_bodies Fixture.scripted Fixture.session Fixture.r1
              [Some (mkResponse 200 (Some (JArr [])) Fixture.no_headers)]
              (mkResponse 200 (Some (JArr [])) Fixture.no_headers)
              (JArr []) eq_refl eq_refl eq_refl) as (Hnot & _).
  apply Hnot. intros members. discriminate.
Defined.

Lemma search_url_from (kwargs : record) : forall url,
  fold_left
    (fun url kv => url +:+ fst kv +:+ "=" +:+ Py.format_cell (snd kv) +:+ "&")
    kwargs url
  = url +:+ query_string kwargs.
Proof.
  induction kwargs as [| kv kwargs IH]; intros url; cbn [fold_left query_string].
  - induction url as [| c url IHurl]; [done |].
    change (String c url = String c (url +:+ "")). by rewrite <- IHurl.
  - rewrite IH. by rewrite !append_assoc.
Qed.

(** X4: the search URL is the search path followed by one [key=value&]
    per keyword argument, in the order of the arguments; without arguments
    it is the bare path, and more arguments only add to its end. *)
Theorem search_url_query_string (kwargs more : record) :
  search_url kwargs
  = "https://api.discogs.com/database/search?" +:+ query_string kwargs
  /\ search_url [] = "https://api.discogs.com/database/search?"
  /\ search_url (kwargs ++ more)%list
     = search_url kwargs +:+ query_string more.
Proof.
  assert (Happ : forall a b,
    query_string (a ++ b)%list = query_string a +:+ query_string b).
  { intros a b. induction a as [| kv a IH]; [done |].
    cbn [app query_string]. by rewrite IH, !append_assoc. }
  unfold search_url. rewrite !search_url_from. split_and!.
  - done.
  - done.
  - by rewrite Happ, append_assoc.
Qed.

(** ** [get_csv_collection] *)

Lemma records_of_inr (rows : list (gmap string cell)) (rs : list record) :
  records_of rows = inr rs ->
  length rs = length rows
  /\ Forall (fun r => exists artist title year, r = query artist title year) rs.
Proof.
  revert rs. induction rows as [| row rows IH]; intros rs; cbn [records_of].
  - by intros [= <-].
  - unfold record_of_row.
    destruct (row !! "Artist") as [artist |]; [| done].
    destruct (row !! "Title") as [title |]; [| done].
    destruct (row !! "Year") as [year |]; [| done].
    destruct (records_of rows) as [e | rs']; [done |].
    intros [= <-]. destruct (IH rs' eq_refl) as [Hlen Hall].
    split; [cbn; by rewrite Hlen |].
    apply Forall_cons. split; [| done]. by exists artist, title, year.
Qed.

(** X5: when reading succeeds, it returns one record per data row left
    after skipping, and every record has the five keys artist,
    release_title, year, type and country, in this order, with type
    "release" and country "US". *)
Theorem read_records_shape (lines : list (list string)) (skip_kw : option Z)
    (rs : list record) :
  get_csv_collection lines skip_kw = inr rs ->
  length rs
  = length (drop (Z.to_nat (default 0 skip_kw)) (data_rows (tail lines)))
  /\ Forall (fun r => exists artist title year, r = query artist title year) rs.
Proof.
  rewrite get_csv_collection_spec. intros Hrs.
  destruct (records_of_inr _ _ Hrs) as [Hlen Hall]. split; [| done].
  rewrite Hlen. destruct lines as [| fieldnames rest].
  - cbn [Csv.DictReader tail]. unfold data_rows.
    by rewrite filter_nil, !drop_nil.
  - rewrite DictReader_cons. cbn [tail].
    by rewrite !length_drop, length_fmap.
Qed.

Lemma read_records_shape_witness :
  length [Fixture.r2; Fixture.r3] = 2%nat
  /\ Forall (fun r => exists artist title year, r = query artist title year)
       [Fixture.r2; Fixture.r3].
Proof.
  exact (read_records_shape Fixture.table (Some 1) [Fixture.r2; Fixture.r3]
           eq_refl).
Defined.

Lemma record_of_row_first_missing (fieldnames row : list string) :
  record_of_row (Csv.row_dict fieldnames row ∅)
  = match first_missing fieldnames with
    | Some key => inl (KeyError (JStr key))
    | None => inr (query_of_row fieldnames row)
    end.
Proof.
  unfold first_missing, record_of_row. cbn [List.find].
  destruct (decide ("Artist" ∈ fieldnames)) as [Ha | Ha].
  2: { rewrite bool_decide_eq_true_2 by done.
       by rewrite row_lookup_absent. }
  rewrite (bool_decide_eq_false_2 ("Artist" ∉ fieldnames)) by tauto.
  rewrite row_lookup_present by done.
  destruct (decide ("Title" ∈ fieldnames)) as [Ht | Ht].
  2: { rewrite bool_decide_eq_true_2 by done.
       by rewrite row_lookup_absent. }
  rewrite (bool_decide_eq_false_2 ("Title" ∉ fieldnames)) by tauto.
  rewrite row_lookup_present by done.
  destruct (decide ("Year" ∈ fieldnames)) as [Hy | Hy].
  2: { rewrite bool_decide_eq_true_2 by done.
       by rewrite row_lookup_absent. }
  rewrite (bool_decide_eq_false_2 ("Year" ∉ fieldnames)) by tauto.
  by rewrite row_lookup_present.
Qed.

(** X6: reading fails in one way only: a data row is left after skipping
    and the header lacks a required column; the error is the [KeyError] of
    the first column missing in the order Artist, Title, Year, whatever
    else is missing and whatever the rows hold. *)
Theorem read_fails_with_first_missing_column (lines : list (list string))
    (skip_kw : option Z) (e : exn) :
  get_csv_collection lines skip_kw = inl e ->
  exists fieldnames key,
    head lines = Some fieldnames
    /\ first_missing fieldnames = Some key
    /\ e = KeyError (JStr key)
    /\ drop (Z.to_nat (default 0 skip_kw)) (data_rows (tail lines)) <> [].
Proof.
  rewrite get_csv_collection_spec.
  destruct lines as [| fieldnames rest].
  { cbn [Csv.DictReader]. by rewrite drop_nil. }
  rewrite DictReader_cons, <- fmap_drop. cbn [tail head].
  destruct (drop _ (data_rows rest)) as [| row rows]; [done |].
  rewrite fmap_cons. cbn [records_of].
  rewrite record_of_row_first_missing.
  destruct (first_missing fieldnames) as [key |] eqn:Hkey.
  - intros [= <-]. by exists fieldnames, key.
  - assert (Hcols : has_required_columns fieldnames).
    { unfold first_missing in Hkey. cbn [List.find] in Hkey.
      unfold has_required_columns.
      by repeat case_bool_decide. }
    by rewrite (records_of_present fieldnames rows Hcols).
Qed.

Lemma read_fails_with_first_missing_column_witness :
  exists fieldnames key,
    head [["Year"]; ["1959"]] = Some fieldnames
    /\ first_missing fieldnames = Some key
    /\ KeyError (JStr "Artist") = KeyError (JStr key)
    /\ drop (Z.to_nat (default 0 None)) (data_rows (tail [["Year"]; ["1959"]]))
       <> [].
Proof.
  exact (read_fails_with_first_missing_column [["Year"]; ["1959"]] None
           (KeyError (JStr "Artist")) eq_refl).
Defined.

Lemma lookup_column_empty_row name fieldnames :
  name ∈ fieldnames -> lookup_column name fieldnames [] = Some CNone.
Proof.
  induction fieldnames as [| k ks IH]; intros Hin.
  - by apply elem_of_nil in Hin.
  - cbn [lookup_column tail].
    destruct (decide (name ∈ ks)) as [Hks | Hks].
    + by rewrite IH.
    + apply (lookup_column_None name ks []) in Hks. rewrite Hks.
      apply elem_of_cons in Hin as [-> | Hin]; [| by apply lookup_column_None in Hks].
      by rewrite String.eqb_refl.
Qed.

(** X7: what a row holds for a column, by position.  In a header
    [pre ++ name :: post] where [name] does not come again in [post], the
    row's cell at the position of [name] is the value; a row too short to
    reach that position holds [None]; a name that is not in the header is
    not a key of the row. *)
Theorem row_dict_positions (pre post : list string) (name : string)
    (row : list string) :
  (forall v,
      name ∉ post -> row !! length pre = Some v ->
      Csv.row_dict (pre ++ name :: post) row ∅ !! name = Some (CStr v))
  /\ ((length row <= length pre)%nat ->
      Csv.row_dict (pre ++ name :: post) row ∅ !! name = Some CNone)
  /\ (forall fieldnames,
        name ∉ fieldnames -> Csv.row_dict fieldnames row ∅ !! name = None).
Proof.
  split_and!.
  - intros v Hpost. rewrite row_dict_lookup. revert row.
    induction pre as [| k pre IH]; intros row Hv.
    + cbn [app lookup_column].
      apply (lookup_column_None name post (tail row)) in Hpost.
      rewrite Hpost, String.eqb_refl.
      destruct row as [| x row]; [done |]. by injection Hv as ->.
    + destruct row as [| x row]; [done |].
      cbn [app lookup_column tail]. cbn in Hv.
      specialize (IH row Hv).
      by destruct (lookup_column name (pre ++ name :: post) row).
  - rewrite row_dict_lookup. revert row.
    induction pre as [| k pre IH]; intros row Hlen.
    + destruct row; [| cbn in Hlen; lia].
      rewrite lookup_column_empty_row; [done |].
      apply elem_of_cons. by left.
    + cbn [app lookup_column].
      assert (Htail : (length (tail row) <= length pre)%nat).
      { destruct row; cbn in *; lia. }
      specialize (IH (tail row) Htail).
      by destruct (lookup_column name (pre ++ name :: post) (tail row)).
  - intros fieldnames Hnot. by apply row_lookup_absent.
Qed.

Lemma row_dict_positions_witness :
  Csv.row_dict ["Year"; "Artist"; "Title"] ["1959"; "Miles Davis"] ∅
    !! "Artist" = Some (CStr "Miles Davis")
  /\ Csv.row_dict ["Year"; "Artist"; "Title"] ["1959"; "Miles Davis"] ∅
       !! "Title" = Some CNone.
Proof.
  split.
  - destruct (row_dict_positions ["Year"] ["Title"] "Artist"
                ["1959"; "Miles Davis"]) as (Hvalue & _ & _).
    apply Hvalue; [| reflexivity].
    intros Hin. apply elem_of_cons in Hin as [Heq | Hin]; [done |].
    by apply elem_of_nil in Hin.
  - destruct (row_dict_positions ["Year"; "Artist"] [] "Title"
                ["1959"; "Miles Davis"]) as (_ & Hshort & _).
    apply Hshort. cbn. lia.
Defined.

(** ** [update_discogs_collection] *)

Ltac count_events :=
  repeat first
    [ rewrite filter_cons_True by (cbn; tauto)
    | rewrite filter_cons_False by (cbn; tauto)
    | rewrite filter_nil ];
  cbn [length].

Section Runs.

Context {W : Type}.
Variable http : Transport W.
Variable repr : json -> string.
Variable session : session_headers.
Variable url : string.

(** The events of one pass through the loop body. *)
Lemma update_record_trace limit count r w :
  let body := update_record http repr session url limit count r w in
  let g := EvGet (search_url r) in
  trace body = [g]
  \/ (exists target, trace body = [g; EvPost target])
  \/ (exists target, trace body = [g; EvPost target; EvSleep 60]).
Proof.
  cbn zeta. destruct (result (search http session r w)) as [release | e | c]
    eqn:Hs.
  - rewrite (update_record_found _ _ _ _ _ _ _ _ _ Hs).
    destruct (Py.getitem release "title") as [e | title] eqn:Ht.
    { unfold add_release, bind, lift, raise. rewrite Ht. by left. }
    destruct (Py.getitem release "id") as [e | id] eqn:Hi.
    { unfold add_release, bind, lift, raise, ret. rewrite Ht, Hi. by left. }
    rewrite (add_release_run _ _ _ _ _ _ _ _ _ _ Ht Hi). cbn zeta.
    right.
    destruct (fst (http_post _ _ _ _)) as [res |]; [| left; by eexists].
    destruct (negb (status_code res =? 201)); [left; by eexists |].
    destruct (count =? limit); [left; by eexists |].
    destruct (remaining_calls res) as [e | n]; [left; by eexists |].
    unfold pause. destruct (n <? 5); [right | left]; by eexists.
  - rewrite (update_record_skipped _ _ _ _ _ _ _ _ _ Hs). by left.
  - by apply search_no_exit in Hs.
Qed.

Lemma record_blocks_cons (t : list event) u target :
  record_blocks t = true ->
  record_blocks (EvGet u :: t) = true
  /\ record_blocks (EvGet u :: EvPost target :: t) = true
  /\ record_blocks (EvGet u :: EvPost target :: EvSleep 60 :: t) = true.
Proof.
  intros Ht.
  destruct t as [| [u0 | target0 | seconds0] t'];
    try (cbn in Ht; discriminate); split_and!; first [exact Ht | done].
Qed.

Lemma update_loop_trace limit collection : forall count w,
  let t := trace (update_loop http repr session url limit count collection w) in
  record_blocks t = true
  /\ (length (filter is_post t) <= length (filter is_get t))%nat
  /\ (length (filter is_sleep t) <= length (filter is_post t))%nat
  /\ (length (filter is_get t) <= length collection)%nat.
Proof.
  induction collection as [| r rest IH]; intros count w.
  { cbn. split_and!; done. }
  cbn zeta. rewrite update_loop_cons. cbn zeta.
  pose proof (update_record_trace limit count r w) as Hbody.
  cbn zeta in Hbody.
  set (body := update_record http repr session url limit count r w) in *.
  assert (Halone :
    record_blocks (trace body) = true
    /\ (length (filter is_post (trace body))
        <= length (filter is_get (trace body)))%nat
    /\ (length (filter is_sleep (trace body))
        <= length (filter is_post (trace body)))%nat
    /\ (length (filter is_get (trace body)) <= S (length rest))%nat).
  { destruct Hbody as [-> | [[target ->] | [target ->]]];
      split_and!; first [done | count_events; lia]. }
  destruct (result body) as [[count' |] | e | c]; try exact Halone.
  unfold prepend. cbn [trace].
  destruct (IH count' (world body)) as (Hb & Hp & Hs & Hg).
  set (t := trace (update_loop http repr session url limit count' rest
                     (world body))) in *.
  destruct (record_blocks_cons t (search_url r) "" Hb) as (B1 & _ & _).
  destruct Hbody as [-> | [[target ->] | [target ->]]].
  - cbn [app]. split_and!; [done | | |]; count_events; lia.
  - destruct (record_blocks_cons t (search_url r) target Hb) as (_ & B2 & _).
    cbn [app]. split_and!; [done | | |]; count_events; lia.
  - destruct (record_blocks_cons t (search_url r) target Hb) as (_ & _ & B3).
    cbn [app]. split_and!; [done | | |]; count_events; lia.
Qed.

Lemma update_loop_gets limit collection : forall count w,
  filter is_get (trace (update_loop http repr session url limit count
                          collection w))
  `prefix_of` (fun r => EvGet (search_url r)) <$> collection.
Proof.
  induction collection as [| r rest IH]; intros count w; [done |].
  rewrite update_loop_cons. cbn zeta.
  destruct (update_record_inv http repr session url limit count r w)
    as (Hg & _).
  rewrite fmap_cons.
  destruct (result (update_record http repr session url limit count r w))
    as [[count' |] | e | c]; unfold prepend; cbn [trace];
    rewrite ?filter_app, Hg.
  - apply (prefix_app [EvGet (search_url r)]), IH.
  - by apply (prefix_cons _ []), prefix_nil.
  - by apply (prefix_cons _ []), prefix_nil.
  - by apply (prefix_cons _ []), prefix_nil.
Qed.

End Runs.

(** X8: whatever the remote side answers, the events of a run come in one
    block per record: a search, then at most one add, then at most one
    pause, always of 60 seconds.  So no add is ever sent without the
    search of its record just before it, no pause is made except right
    after an add, and there are at most as many pauses as adds, adds as
    searches, and searches as records. *)
Theorem update_trace_blocks {W} (http : Transport W) (repr : json -> string)
    (session : session_headers) (username : string)
    (collection : list record) (limit_kw : option Z) (w : W) :
  let t :=
    trace (update_discogs_collection http repr session username collection
             limit_kw w) in
  record_blocks t = true
  /\ (length (filter is_post t) <= length (filter is_get t))%nat
  /\ (length (filter is_sleep t) <= length (filter is_post t))%nat
  /\ (length (filter is_get t) <= length collection)%nat.
Proof. apply update_loop_trace. Qed.

(** X9: the searches of a run are the searches for the records of the
    collection, in order, up to the point where the run ends: no record is
    searched twice, none is searched before an earlier one, none is
    retried. *)
Theorem update_searches_in_order {W} (http : Transport W)
    (repr : json -> string) (session : session_headers) (username : string)
    (collection : list record) (limit_kw : option Z) (w : W) :
  filter is_get
    (trace (update_discogs_collection http repr session username collection
              limit_kw w))
  `prefix_of` (fun r => EvGet (search_url r)) <$> collection.
Proof. apply update_loop_gets. Qed.

Section Accepted.

Context {W : Type}.
Variable http : Transport W.
Variable repr : json -> string.
Variable session : session_headers.
Variable url : string.

(** X11: a request that raises is treated by its kind: when the search
    request raises, the record is skipped and the loop goes on with the
    next one; when the add request raises, the whole run ends with that
    exception and the records after it are left alone. *)
Theorem request_failures (limit count : Z) (r : record) (rest : list record)
    (w : W) :
  (fst (http_get http session (search_url r) w) = None ->
   update_loop http repr session url limit count (r :: rest) w
   = prepend [EvGet (search_url r)]
       (update_loop http repr session url limit (count + 1) rest
          (snd (http_get http session (search_url r) w))))
  /\ (forall release title id,
        result (search http session r w) = Returned release ->
        Py.getitem release "title" = inr title ->
        Py.getitem release "id" = inr id ->
        let target := url +:+ Py.str repr id in
        let answer :=
          http_post http session target (world (search http session r w)) in
        fst answer = None ->
        update_loop http repr session url limit count (r :: rest) w
        = mkRun (Raised RequestException) (snd answer)
            [EvGet (search_url r); EvPost target]).
Proof.
  split.
  - intros Hget.
    assert (Hs : result (search http session r w) = Raised RequestException).
    { rewrite search_run. cbn [result]. by rewrite Hget. }
    rewrite (update_loop_skipped _ _ _ _ _ _ _ _ _ _ Hs).
    by rewrite search_run.
  - intros release title id Hs Ht Hi target answer Hpost.
    rewrite (update_loop_found _ _ _ _ _ _ _ _ _ _ _ _ Hs Ht Hi).
    cbn zeta. fold target answer. by rewrite Hpost.
Qed.

(** X12: a release without a title or without an id ends the whole run:
    the lookup of line 116 or 118 raises outside the [try] of the loop, so
    the run ends with that exception after the search alone, and no add
    request is sent, neither for this record nor for the ones after it. *)
Theorem release_without_title_or_id (limit count : Z) (r : record)
    (rest : list record) (w : W) (release : json) (e : exn) :
  result (search http session r w) = Returned release ->
  Py.getitem release "title" = inl e
  \/ (exists title, Py.getitem release "title" = inr title)
     /\ Py.getitem release "id" = inl e ->
  update_loop http repr session url limit count (r :: rest) w
  = mkRun (Raised e) (world (search http session r w)) [EvGet (search_url r)].
Proof.
  intros Hs Hmissing.
  rewrite update_loop_cons, (update_record_found _ _ _ _ _ _ _ _ _ Hs).
  unfold add_release, bind, lift, raise, ret, prepend. cbn zeta.
  destruct Hmissing as [Ht | [[title Ht] Hi]].
  - by rewrite Ht.
  - by rewrite Ht, Hi.
Qed.

End Accepted.

(** X10: when every record resolves to a release with a title and an id
    and the remote side accepts every add, a run ends normally; with a
    limit of at least 1 it searches and adds the first [limit] records
    (all of them when there are fewer) and nothing more, and without a
    positive limit it searches and adds every record. *)
Theorem accepted_run_stops_at_limit {W} (http : Transport W)
    (repr : json -> string) (session : session_headers) (username : string)
    (collection : list record) (limit_kw : option Z) (w : W) :
  Forall (resolvable http session) collection ->
  accepting http ->
  let limit := default 0 limit_kw in
  let run :=
    update_discogs_collection http repr session username collection
      limit_kw w in
  let visited :=
    if bool_decide (1 <= limit) then take (Z.to_nat limit) collection
    else collection in
  result run = Returned tt
  /\ filter is_get (trace run) = (fun r => EvGet (search_url r)) <$> visited
  /\ length (filter is_post (trace run)) = length visited.
Proof.
  intros Hall Hacc limit run visited.
  pose proof (update_loop_accepted http repr session (collection_url username)
                limit collection 1 w Hall Hacc) as Hloop.
  cbn zeta in Hloop. unfold reached in Hloop.
  replace (limit - 1 + 1) with limit in Hloop by lia.
  subst visited. case_bool_decide as Hlimit.
  - by rewrite (proj2 (Z.leb_le 1 limit)) in Hloop by lia.
  - by rewrite (proj2 (Z.leb_gt 1 limit)) in Hloop by lia.
Qed.

Lemma update_loop_first_event {W} (http : Transport W) repr session url
    limit count r rest w :
  exists t,
    trace (update_loop http repr session url limit count (r :: rest) w)
    = EvGet (search_url r) :: t.
Proof.
  rewrite update_loop_cons. cbn zeta.
  pose proof (update_record_trace http repr session url limit count r w)
    as Hbody. cbn zeta in Hbody.
  destruct (result (update_record http repr session url limit count r w))
    as [[count' |] | e | c]; unfold prepend; cbn [trace];
    destruct Hbody as [-> | [[target ->] | [target ->]]]; by eexists.
Qed.

(** X13: [main] contacts the remote side exactly when the file yields at
    least one record and the token can be read, and then its first request
    is the search for the first record kept; in every other case it makes
    no request at all and does not end normally (it exits with code 1, or
    raises the reader's error, which comes before the token is looked
    at). *)
Theorem main_first_request {W} (http : Transport W) (repr : json -> string)
    (username : string) (lines : list (list string))
    (token_line : option string) (limit skip : Z) (w : W) :
  let run := main http repr username lines token_line limit skip w in
  match get_csv_collection lines (Some skip), token_line with
  | inr (r :: _), Some _ => exists t, trace run = EvGet (search_url r) :: t
  | inl e, _ => run = mkRun (Raised e) w []
  | _, _ => run = mkRun (SystemExit 1) w []
  end.
Proof.
  cbn zeta. unfold main.
  destruct (get_csv_collection lines (Some skip)) as [e | [| r rs]];
    [done | by destruct token_line |].
  destruct token_line as [line |]; [| done].
  cbn [authenticate]. apply update_loop_first_event.
Qed.

(** X14: the add request for a release goes to the path
    [/users/<username>/collection/folders/1/releases/<id>] of the API
    host, the username written as it is and the id in decimal when it is an
    integer, as it is when it is a string. *)
Theorem add_url_literal {W} (http : Transport W) (repr : json -> string)
    (session : session_headers) (username : string) (limit count : Z)
    (release title id : json) (w : W) :
  Py.getitem release "title" = inr title ->
  Py.getitem release "id" = inr id ->
  let run :=
    add_release http repr session (collection_url username) limit count
      release w in
  let path := "https://api.discogs.com/users/" +:+ username
                +:+ "/collection/folders/1/releases/" in
  (forall z, id = JInt z ->
             exists t, trace run = EvPost (path +:+ pretty z) :: t)
  /\ (forall s, id = JStr s -> exists t, trace run = EvPost (path +:+ s) :: t).
Proof.
  intros Ht Hi run path. subst run.
  rewrite (add_release_run _ _ _ _ _ _ _ _ _ _ Ht Hi). cbn zeta.
  assert (Hpath : collection_url username = path).
  { unfold collection_url, USERS_API, API_HOST, path.
    by rewrite !append_assoc. }
  rewrite Hpath.
  split; intros ? ->; cbn [Py.str];
    (destruct (fst (http_post _ _ _ _)) as [res |]; [| by eexists]);
    (destruct (negb (status_code res =? 201)); [by eexists |]);
    (destruct (count =? limit); [by eexists |]);
    destruct (remaining_calls res); by eexists.
Qed.

Section EarlyStop.

Context {W : Type}.
Variable http : Transport W.
Variable repr : json -> string.
Variable session : session_headers.
Variable url : string.

(** The loop body breaks only right after the add request. *)
Lemma update_record_break_trace limit count r w :
  let body := update_record http repr session url limit count r w in
  result body = Returned Break ->
  exists target, trace body = [EvGet (search_url r); EvPost target].
Proof.
  cbn zeta. destruct (result (search http session r w)) as [release | e | c]
    eqn:Hs.
  - rewrite (update_record_found _ _ _ _ _ _ _ _ _ Hs).
    destruct (Py.getitem release "title") as [e | title] eqn:Ht.
    { unfold add_release, bind, lift, raise. by rewrite Ht. }
    destruct (Py.getitem release "id") as [e | id] eqn:Hi.
    { unfold add_release, bind, lift, raise, ret. by rewrite Ht, Hi. }
    rewrite (add_release_run _ _ _ _ _ _ _ _ _ _ Ht Hi). cbn zeta.
    destruct (fst (http_post _ _ _ _)) as [res |]; [| done].
    destruct (negb (status_code res =? 201)); [done |].
    destruct (count =? limit); [intros _; by eexists |].
    by destruct (remaining_calls res).
  - by rewrite (update_record_skipped _ _ _ _ _ _ _ _ _ Hs).
  - by apply search_no_exit in Hs.
Qed.

Lemma update_loop_early_stop limit collection : forall count w,
  let run := update_loop http repr session url limit count collection w in
  result run = Returned tt ->
  filter is_get (trace run) = (fun r => EvGet (search_url r)) <$> collection
  \/ (count <= limit
      /\ Z.of_nat (length (filter is_get (trace run))) = limit - count + 1
      /\ exists t target, trace run = (t ++ [EvPost target])%list).
Proof.
  induction collection as [| r rest IH]; intros count w; [by left |].
  cbn zeta. rewrite update_loop_cons. cbn zeta.
  destruct (update_record_inv http repr session url limit count r w)
    as (Hg & Hc & Hb & _).
  pose proof (update_record_break_trace limit count r w) as Hbreak.
  cbn zeta in Hbreak.
  destruct (result (update_record http repr session url limit count r w))
    as [[count' |] | e | c]; [| | done | done].
  - rewrite (Hc count' eq_refl). unfold prepend. cbn [result trace].
    intros Hret.
    destruct (IH (count + 1) _ Hret) as [Hall | (Hle & Hlen & t & target & Ht)].
    + left. by rewrite filter_app, Hg, Hall.
    + right. rewrite filter_app, Hg, length_app. cbn [length].
      split_and!; [lia | lia |].
      exists (trace (update_record http repr session url limit count r w)
                ++ t)%list, target.
      by rewrite Ht, app_assoc.
  - intros _. specialize (Hb eq_refl). subst count.
    destruct (Hbreak eq_refl) as [target Ht]. right. cbn [trace].
    rewrite Hg. cbn [length]. split_and!; [lia | lia |].
    exists [EvGet (search_url r)], target. by rewrite Ht.
Qed.

End EarlyStop.

(** X15: a run that ends normally has either searched every record, or
    stopped at the limit: the limit is then at least 1, the run has
    searched exactly [limit] records, counting the skipped ones, and its
    last event is the add request for the last of them. *)
Theorem early_stop_is_at_limit {W} (http : Transport W)
    (repr : json -> string) (session : session_headers) (username : string)
    (collection : list record) (limit_kw : option Z) (w : W) :
  let limit := default 0 limit_kw in
  let run :=
    update_discogs_collection http repr session username collection
      limit_kw w in
  result run = Returned tt ->
  filter is_get (trace run) = (fun r => EvGet (search_url r)) <$> collection
  \/ (1 <= limit
      /\ Z.of_nat (length (filter is_get (trace run))) = limit
      /\ exists t target, trace run = (t ++ [EvPost target])%list).
Proof.
  intros limit run Hret.
  destruct (update_loop_early_stop http repr session (collection_url username)
              limit collection 1 w Hret) as [Hall | (Hle & Hlen & Hlast)].
  - by left.
  - right. split_and!; [done | | done]. unfold run in *.
    unfold update_discogs_collection. fold limit. lia.
Qed.

(** ** The further properties on concrete runs *)

Lemma search_returns_iff_witness :
  result (search (Fixture.finds_all (Fixture.added "3")) Fixture.session
            Fixture.r1 tt)
  = Returned Fixture.release.
Proof.
  apply search_returns_iff.
  exists (Fixture.found 7 "Kind of Blue"),
    [("results", JArr [Fixture.release])], (JArr [Fixture.release]).
  by split_and!.
Defined.

Lemma accepted_run_stops_at_limit_witness :
  let run :=
    update_discogs_collection (Fixture.finds_all (Fixture.added "10"))
      Fixture.no_repr Fixture.session "u"
      [Fixture.r1; Fixture.r2; Fixture.r3] (Some 2) tt in
  result run = Returned tt
  /\ filter is_get (trace run)
     = [EvGet (search_url Fixture.r1); EvGet (search_url Fixture.r2)]
  /\ length (filter is_post (trace run)) = 2%nat.
Proof.
  apply (accepted_run_stops_at_limit (Fixture.finds_all (Fixture.added "10"))
           Fixture.no_repr Fixture.session "u"
           [Fixture.r1; Fixture.r2; Fixture.r3] (Some 2) tt).
  - repeat constructor;
      exists Fixture.release, (JStr "Kind of Blue"), (JInt 7);
      split_and!; try reflexivity; intros w; reflexivity.
  - intros session url w. exists (Fixture.added "10"), 10.
    split_and!; reflexivity.
Defined.

Lemma request_failures_witness :
  update_loop Fixture.unreachable Fixture.no_repr Fixture.session
    (collection_url "u") 0 1 [Fixture.r1] tt
  = mkRun (Returned tt) tt [EvGet (search_url Fixture.r1)]
  /\ update_loop Fixture.finds_then_drops Fixture.no_repr Fixture.session
       (collection_url "u") 0 1 [Fixture.r1; Fixture.r2] tt
     = mkRun (Raised RequestException) tt
         [EvGet (search_url Fixture.r1); EvPost (collection_url "u" +:+ "7")].
Proof.
  split.
  - destruct (request_failures Fixture.unreachable Fixture.no_repr
                Fixture.session (collection_url "u") 0 1 Fixture.r1 [] tt)
      as [Hget _].
    rewrite (Hget eq_refl). reflexivity.
  - destruct (request_failures Fixture.finds_then_drops Fixture.no_repr
                Fixture.session (collection_url "u") 0 1 Fixture.r1
                [Fixture.r2] tt) as [_ Hpost].
    exact (Hpost Fixture.release (JStr "Kind of Blue") (JInt 7)
             eq_refl eq_refl eq_refl eq_refl).
Defined.

Lemma release_without_title_or_id_witness :
  update_loop Fixture.finds_untitled Fixture.no_repr Fixture.session
    (collection_url "u") 0 1 [Fixture.r1; Fixture.r2] tt
  = mkRun (Raised (KeyError (JStr "title"))) tt [EvGet (search_url Fixture.r1)].
Proof.
  apply (release_without_title_or_id Fixture.finds_untitled Fixture.no_repr
           Fixture.session (collection_url "u") 0 1 Fixture.r1 [Fixture.r2]
           tt (JObj [("id", JInt 7)]) (KeyError (JStr "title")) eq_refl).
  by left.
Defined.

Lemma add_url_literal_witness :
  exists t,
    trace (add_release (Fixture.finds_all (Fixture.added "10"))
             Fixture.no_repr Fixture.session (collection_url "u") 0 1
             Fixture.release tt)
    = EvPost "https://api.discogs.com/users/u/collection/folders/1/releases/7"
        :: t.
Proof.
  destruct (add_url_literal (Fixture.finds_all (Fixture.added "10"))
              Fixture.no_repr Fixture.session "u" 0 1 Fixture.release
              (JStr "Kind of Blue") (JInt 7) tt eq_refl eq_refl)
    as [Hint _].
  exact (Hint 7 eq_refl).
Defined.

Lemma early_stop_is_at_limit_witness :
  let run :=
    update_discogs_collection (Fixture.finds_all (Fixture.added "10"))
      Fixture.no_repr Fixture.session "u"
      [Fixture.r1; Fixture.r2; Fixture.r3] (Some 2) tt in
  filter is_get (trace run)
  = (fun r => EvGet (search_url r)) <$> [Fixture.r1; Fixture.r2; Fixture.r3]
  \/ (1 <= 2
      /\ Z.of_nat (length (filter is_get (trace run))) = 2
      /\ exists t target, trace run = (t ++ [EvPost target])%list).
Proof.
  exact (early_stop_is_at_limit (Fixture.finds_all (Fixture.added "10"))
           Fixture.no_repr Fixture.session "u"
           [Fixture.r1; Fixture.r2; Fixture.r3] (Some 2) tt eq_refl).
Defined.
